(** * Hack-or-Snooze client data layer (js/models.js)

    A shallow embedding of the three classes of [js/models.js] -- [Story],
    [StoryList] and [User] -- and proofs of the properties their
    specification states, followed by the functions that put stories on
    the page and react to the story form and the stars.

    Modelling choices, all taken from the source:

    - Every datum the classes store comes out of [response.json()] or is
      handed in by the view layer, so fields hold JavaScript values
      ([value]): the JSON values plus [undefined].
    - A method body is a program ([prog]) over the receiver [this]: it may
      read and write [this], throw, log, and suspend at [await fetch(..)].
      One definition per method serves both for the state reached at the
      suspension point and for the state after the call settled.
    - What the browser provides (string conversion, the [URL] class,
      [URLSearchParams], the network) is an interface, [Platform], or an
      argument of the run ([network]). *)

From Stdlib Require Import Ascii String List Bool ZArith Lia.
From Stdlib Require DecimalString.
From ExtLib Require Import Structures.Monad Structures.MonadExc.
Import ListNotations.
Import MonadNotation.
Local Open Scope string_scope.
Local Open Scope monad_scope.

Set Implicit Arguments.

(* ===================================================================== *)
(** ** JavaScript values *)
(* ===================================================================== *)

(** The values [JSON.parse] produces, and [undefined] (the result of
    reading a property that is not there).  Numbers are kept as integers:
    the classes never compute with them. *)
#[local] Unset Elimination Schemes.
Inductive value : Type :=
| VUndefined
| VNull
| VBool (b : bool)
| VNum (n : Z)
| VStr (s : string)
| VArr (items : list value)
| VObj (props : list (string * value)).
#[local] Set Elimination Schemes.

(** What a [throw] or a rejected promise carries.  [NetworkError] is the
    rejection of [fetch] on a transport failure. *)
Inductive error : Type :=
| TypeError
| SyntaxError
| NetworkError.

(** Outcome of evaluating an expression or settling a promise. *)
Inductive completion (A : Type) : Type :=
| Normal (a : A)
| Abrupt (e : error).

Arguments Normal {A} a.
Arguments Abrupt {A} e.

Definition completion_bind {A B} (c : completion A) (k : A -> completion B)
  : completion B :=
  match c with
  | Normal a => k a
  | Abrupt e => Abrupt e
  end.

#[export] Instance Monad_completion : Monad completion :=
  {| ret := @Normal; bind := @completion_bind |}.

#[export] Instance Exc_completion : MonadExc error completion :=
  {| raise := @Abrupt;
     catch := fun A c h => match c with Normal a => Normal a | Abrupt e => h e end |}.

(** Own-property lookup in a parsed object; the first binding of a key is
    the property. *)
Fixpoint lookup (k : string) (props : list (string * value)) : option value :=
  match props with
  | [] => None
  | (k', v) :: rest => if String.eqb k k' then Some v else lookup k rest
  end.

(** [o.k] and the destructuring pattern [{k} = o]: a [TypeError] on
    [undefined] and [null], [undefined] for a property that is absent.
    (None of the keys this program reads is a built-in property of a
    string, number, boolean or array.) *)
Definition get_prop (k : string) (o : value) : completion value :=
  match o with
  | VUndefined | VNull => Abrupt TypeError
  | VObj props =>
      match lookup k props with
      | Some v => Normal v
      | None => Normal VUndefined
      end
  | _ => Normal VUndefined
  end.

(** A default initialiser in a destructuring pattern, [k = d]: it applies
    to [undefined] only. *)
Definition or_default (d : value) (v : value) : value :=
  match v with
  | VUndefined => d
  | _ => v
  end.

(** [for] each element, left to right, stopping at the first throw. *)
Fixpoint mapM {A B} (f : A -> completion B) (l : list A) : completion (list B) :=
  match l with
  | [] => Normal []
  | x :: rest =>
      y <- f x ;;
      ys <- mapM f rest ;;
      ret (y :: ys)
  end.

(** [a.map(f)]: defined on arrays; on anything else [a.map] is not a
    function (or [a] has no properties at all) and the call throws. *)
Definition array_map {B} (f : value -> completion B) (a : value)
  : completion (list B) :=
  match a with
  | VArr items => mapM f items
  | _ => Abrupt TypeError
  end.

(** [a === b].  Primitives compare by value; a composite is compared by
    content, which agrees with JavaScript whenever one side is a primitive
    or both sides are the same object.  Two distinct objects of equal
    content are not told apart here: a statement whose truth would hinge
    on that is made for identifiers that are primitive ([primitive]). *)
Fixpoint strict_eq (a b : value) {struct a} : bool :=
  match a, b with
  | VUndefined, VUndefined => true
  | VNull, VNull => true
  | VBool x, VBool y => Bool.eqb x y
  | VNum x, VNum y => Z.eqb x y
  | VStr x, VStr y => String.eqb x y
  | VArr xs, VArr ys =>
      (fix items_eq (xs ys : list value) {struct xs} : bool :=
         match xs, ys with
         | [], [] => true
         | x :: xs', y :: ys' => strict_eq x y && items_eq xs' ys'
         | _, _ => false
         end) xs ys
  | VObj ps, VObj qs =>
      (fix props_eq (ps qs : list (string * value)) {struct ps} : bool :=
         match ps, qs with
         | [], [] => true
         | (k, x) :: ps', (k', y) :: qs' =>
             String.eqb k k' && strict_eq x y && props_eq ps' qs'
         | _, _ => false
         end) ps qs
  | _, _ => false
  end.

(* ===================================================================== *)
(** ** The network and the platform *)
(* ===================================================================== *)

Inductive http_method : Type := GET | POST | DELETE.

(** The two arguments of [fetch(url, {method, body, headers})].  [body]
    holds the value given to [JSON.stringify]. *)
Record Request : Type := {
  req_url : string;
  req_method : http_method;
  req_body : option value;
  req_headers : list (string * string)
}.

(** A response as this program sees it: the status line (which it never
    inspects) and what [await response.json()] settles to. *)
Record Response : Type := {
  resp_status : Z;
  resp_json : completion value
}.

(** The remote service and the transport: what [await fetch(req)] settles
    to.  [fetch] rejects on a transport failure only; an HTTP error status
    is a [Normal] response. *)
Definition network : Type := Request -> completion Response.

(** The fields of a [URL] object this program can observe. *)
Record URL : Type := {
  protocol : string;
  host : string;
  hostname : string;
  port : string;
  pathname : string
}.

(** What the browser supplies. *)
Class Platform : Type := {
  (** [`${v}`] *)
  ToString : value -> completion string;
  (** [new URL(v)] *)
  new_URL : value -> completion URL;
  (** [`${new URLSearchParams(init)}`] for an object literal [init] *)
  URLSearchParams : list (string * value) -> completion string
}.

(* ===================================================================== *)
(** ** Method bodies *)
(* ===================================================================== *)

(** A method body over a receiver of type [S], returning [A]. *)
Inductive prog (S A : Type) : Type :=
| Ret (a : A)
| Throw (e : error)
| GetThis (k : S -> prog S A)
| SetThis (s : S) (k : prog S A)
| ConsoleError (msg : string) (e : error) (k : prog S A)
| AwaitFetch (req : Request) (k : completion Response -> prog S A).

Arguments Ret {S A} a.
Arguments Throw {S A} e.
Arguments GetThis {S A} k.
Arguments SetThis {S A} s k.
Arguments ConsoleError {S A} msg e k.
Arguments AwaitFetch {S A} req k.

Fixpoint prog_bind {S A B} (p : prog S A) (f : A -> prog S B) : prog S B :=
  match p with
  | Ret a => f a
  | Throw e => Throw e
  | GetThis k => GetThis (fun s => prog_bind (k s) f)
  | SetThis s k => SetThis s (prog_bind k f)
  | ConsoleError msg e k => ConsoleError msg e (prog_bind k f)
  | AwaitFetch req k => AwaitFetch req (fun r => prog_bind (k r) f)
  end.

(** [try { p } catch (err) { h err }] *)
Fixpoint try_catch {S A} (p : prog S A) (h : error -> prog S A) : prog S A :=
  match p with
  | Ret a => Ret a
  | Throw e => h e
  | GetThis k => GetThis (fun s => try_catch (k s) h)
  | SetThis s k => SetThis s (try_catch k h)
  | ConsoleError msg e k => ConsoleError msg e (try_catch k h)
  | AwaitFetch req k => AwaitFetch req (fun r => try_catch (k r) h)
  end.

#[export] Instance Monad_prog {S} : Monad (prog S) :=
  {| ret := @Ret S; bind := @prog_bind S |}.

#[export] Instance Exc_prog {S} : MonadExc error (prog S) :=
  {| raise := @Throw S; catch := @try_catch S |}.

(** A synchronous expression used inside a method body. *)
Definition eval {S A} (c : completion A) : prog S A :=
  match c with
  | Normal a => Ret a
  | Abrupt e => Throw e
  end.

Definition this {S} : prog S S := GetThis (fun s => Ret s).

Definition set_this {S} (s : S) : prog S unit := SetThis s (Ret tt).

(** [await fetch(url, init)] *)
Definition fetch {S} (req : Request) : prog S Response :=
  AwaitFetch req (fun r => eval r).

(** [await response.json()] *)
Definition json {S} (response : Response) : prog S value :=
  eval (resp_json response).

(** Runs a call to completion against a network: the receiver afterwards
    and how the returned promise settled.  A throw keeps the receiver as
    it is at that point. *)
Fixpoint run {S A} (net : network) (p : prog S A) (s : S) : S * completion A :=
  match p with
  | Ret a => (s, Normal a)
  | Throw e => (s, Abrupt e)
  | GetThis k => run net (k s) s
  | SetThis s' k => run net k s'
  | ConsoleError _ _ k => run net k s
  | AwaitFetch req k => run net (k (net req)) s
  end.

(** Where a call that has been started stands when control returns to the
    caller: settled without ever awaiting, or suspended on a request. *)
Inductive paused (A : Type) : Type :=
| Settled (c : completion A)
| Pending (req : Request).

Arguments Settled {A} c.
Arguments Pending {A} req.

(** Runs the synchronous part of a call: up to its first [await]. *)
Fixpoint start {S A} (p : prog S A) (s : S) : S * paused A :=
  match p with
  | Ret a => (s, Settled (Normal a))
  | Throw e => (s, Settled (Abrupt e))
  | GetThis k => start (k s) s
  | SetThis s' k => start k s'
  | ConsoleError _ _ k => start k s
  | AwaitFetch req _ => (s, Pending req)
  end.

(** A static method has no receiver. *)
Definition call {A} (net : network) (p : prog unit A) : completion A :=
  snd (run net p tt).

Definition BASE_URL : string := "https://hack-or-snooze-v3.herokuapp.com".

(* ===================================================================== *)
(** ** class Story *)
(* ===================================================================== *)

Module Story.

Record t : Type := {
  storyId : value;
  title : value;
  author : value;
  url : value;
  username : value;
  createdAt : value
}.

(** [constructor({ storyId, title, author, url, username, createdAt })] *)
Definition new (data : value) : completion t :=
  storyId <- get_prop "storyId" data ;;
  title <- get_prop "title" data ;;
  author <- get_prop "author" data ;;
  url <- get_prop "url" data ;;
  username <- get_prop "username" data ;;
  createdAt <- get_prop "createdAt" data ;;
  ret {| storyId := storyId; title := title; author := author;
         url := url; username := username; createdAt := createdAt |}.

Section Methods.
Context {P : Platform}.

(** [getHostName() { return new URL(this.url).host; }] *)
Definition getHostName (this : t) : completion string :=
  u <- new_URL (url this) ;;
  ret (host u).

(** [static async getStory(storyId)] *)
Definition getStory (storyId : value) : prog unit t :=
  id <- eval (ToString storyId) ;;
  story <- fetch {| req_url := BASE_URL ++ "/stories/" ++ id;
                    req_method := GET;
                    req_body := None;
                    req_headers := [] |} ;;
  data <- json story ;;
  record <- eval (get_prop "story" data) ;;
  eval (new record).

End Methods.

End Story.

(* ===================================================================== *)
(** ** class User *)
(* ===================================================================== *)

Module User.

(** The two arrays of a user are created by the constructor ([map]
    returns a new array) and are reachable through the user only, so
    each is a field holding its own sequence.  A [Story] is never written
    after its construction and is held by value. *)
Record t : Type := {
  username : value;
  name : value;
  createdAt : value;
  favorites : list Story.t;
  ownStories : list Story.t;
  loginToken : value
}.

(** [this.favorites = l] *)
Definition set_favorites (u : t) (l : list Story.t) : t :=
  {| username := username u; name := name u; createdAt := createdAt u;
     favorites := l; ownStories := ownStories u;
     loginToken := loginToken u |}.

(** [constructor({username, name, createdAt, favorites = [],
    ownStories = []}, token)] *)
Definition new (data : value) (token : value) : completion t :=
  username <- get_prop "username" data ;;
  name <- get_prop "name" data ;;
  createdAt <- get_prop "createdAt" data ;;
  favorites <- get_prop "favorites" data ;;
  ownStories <- get_prop "ownStories" data ;;
  let favorites := or_default (VArr []) favorites in
  let ownStories := or_default (VArr []) ownStories in
  favorites <- array_map Story.new favorites ;;
  ownStories <- array_map Story.new ownStories ;;
  ret {| username := username; name := name; createdAt := createdAt;
         favorites := favorites; ownStories := ownStories;
         loginToken := token |}.

(** The loop of [isFavorite]: [for (let s of this.favorites)] with its
    early [return true]. *)
Fixpoint isFavorite_loop (favorites : list Story.t) (story : Story.t) : bool :=
  match favorites with
  | [] => false
  | s :: rest =>
      if strict_eq (Story.storyId s) (Story.storyId story) then true
      else isFavorite_loop rest story
  end.

(** [isFavorite(story)] *)
Definition isFavorite (this : t) (story : Story.t) : bool :=
  isFavorite_loop (favorites this) story.

Section Methods.
Context {P : Platform}.

(** [static async signup(username, password, name)] *)
Definition signup (username password name : value) : prog unit t :=
  response <- fetch
    {| req_url := BASE_URL ++ "/signup";
       req_method := POST;
       req_body := Some (VObj [("user", VObj [("username", username);
                                              ("password", password);
                                              ("name", name)])]);
       req_headers := [("content-type", "application/json")] |} ;;
  userData <- json response ;;
  user <- eval (get_prop "user" userData) ;;
  username <- eval (get_prop "username" user) ;;
  name <- eval (get_prop "name" user) ;;
  createdAt <- eval (get_prop "createdAt" user) ;;
  favorites <- eval (get_prop "favorites" user) ;;
  stories <- eval (get_prop "stories" user) ;;
  token <- eval (get_prop "token" userData) ;;
  eval (new (VObj [("username", username);
                   ("name", name);
                   ("createdAt", createdAt);
                   ("favorites", favorites);
                   ("ownStories", stories)])
            token).

(** [static async login(username, password)] *)
Definition login (username password : value) : prog unit t :=
  response <- fetch
    {| req_url := BASE_URL ++ "/login";
       req_method := POST;
       req_body := Some (VObj [("user", VObj [("username", username);
                                              ("password", password)])]);
       req_headers := [("content-type", "application/json")] |} ;;
  userData <- json response ;;
  user <- eval (get_prop "user" userData) ;;
  username <- eval (get_prop "username" user) ;;
  name <- eval (get_prop "name" user) ;;
  createdAt <- eval (get_prop "createdAt" user) ;;
  favorites <- eval (get_prop "favorites" user) ;;
  stories <- eval (get_prop "stories" user) ;;
  token <- eval (get_prop "token" userData) ;;
  eval (new (VObj [("username", username);
                   ("name", name);
                   ("createdAt", createdAt);
                   ("favorites", favorites);
                   ("ownStories", stories)])
            token).

(** The [try] block of [loginViaStoredCredentials]. *)
Definition loginViaStoredCredentials_try (token username : value)
  : prog unit (option t) :=
  tokenParams <- eval (URLSearchParams [("token", token)]) ;;
  path <- eval (ToString username) ;;
  response <- fetch
    {| req_url := BASE_URL ++ "/users/" ++ path ++ "?" ++ tokenParams;
       req_method := GET;
       req_body := None;
       req_headers := [] |} ;;
  userData <- json response ;;
  user <- eval (get_prop "user" userData) ;;
  username <- eval (get_prop "username" user) ;;
  name <- eval (get_prop "name" user) ;;
  createdAt <- eval (get_prop "createdAt" user) ;;
  favorites <- eval (get_prop "favorites" user) ;;
  stories <- eval (get_prop "stories" user) ;;
  u <- eval (new (VObj [("username", username);
                        ("name", name);
                        ("createdAt", createdAt);
                        ("favorites", favorites);
                        ("ownStories", stories)])
                 token) ;;
  ret (Some u).

(** [static async loginViaStoredCredentials(token, username)];
    [None] is the [null] it returns from its [catch] block. *)
Definition loginViaStoredCredentials (token username : value)
  : prog unit (option t) :=
  catch (loginViaStoredCredentials_try token username)
        (fun err =>
           ConsoleError "loginViaStoredCredentials failed" err (Ret None)).

(** [async addFavorite(story)] *)
Definition addFavorite (story : Story.t) : prog t unit :=
  (* this.favorites.push(story) *)
  self <- this ;;
  set_this (set_favorites self (favorites self ++ [story])) ;;
  self <- this ;;
  let token := loginToken self in
  user <- eval (ToString (username self)) ;;
  id <- eval (ToString (Story.storyId story)) ;;
  _ <- fetch
    {| req_url := BASE_URL ++ "/users/" ++ user ++ "/favorites/" ++ id;
       req_method := POST;
       req_body := Some (VObj [("token", token)]);
       req_headers := [("Content-Type", "application/json")] |} ;;
  ret tt.

(** [async removeFavorite(story)] *)
Definition removeFavorite (story : Story.t) : prog t unit :=
  self <- this ;;
  set_this
    (set_favorites self
       (filter (fun s => negb (strict_eq (Story.storyId s) (Story.storyId story)))
               (favorites self))) ;;
  self <- this ;;
  let token := loginToken self in
  user <- eval (ToString (username self)) ;;
  id <- eval (ToString (Story.storyId story)) ;;
  _ <- fetch
    {| req_url := BASE_URL ++ "/users/" ++ user ++ "/favorites/" ++ id;
       req_method := DELETE;
       req_body := Some (VObj [("token", token)]);
       req_headers := [("Content-Type", "application/json")] |} ;;
  ret tt.

End Methods.

End User.

(* ===================================================================== *)
(** ** class StoryList *)
(* ===================================================================== *)

Module StoryList.

Record t : Type := { stories : list Story.t }.

Section Methods.
Context {P : Platform}.

(** [static async getStories()] *)
Definition getStories : prog unit t :=
  response <- fetch {| req_url := BASE_URL ++ "/stories";
                       req_method := GET;
                       req_body := None;
                       req_headers := [] |} ;;
  storiesData <- json response ;;
  records <- eval (get_prop "stories" storiesData) ;;
  stories <- eval (array_map Story.new records) ;;
  ret {| stories := stories |}.

(** [async addStory(currentUser, newStory)] *)
Definition addStory (currentUser : User.t) (newStory : value) : prog t Story.t :=
  let userToken := User.loginToken currentUser in
  author <- eval (get_prop "author" newStory) ;;
  title <- eval (get_prop "title" newStory) ;;
  url <- eval (get_prop "url" newStory) ;;
  response <- fetch
    {| req_url := BASE_URL ++ "/stories";
       req_method := POST;
       req_body := Some (VObj [("token", userToken);
                               ("story", VObj [("author", author);
                                               ("title", title);
                                               ("url", url)])]);
       req_headers := [("Content-Type", "application/json")] |} ;;
  data <- json response ;;
  record <- eval (get_prop "story" data) ;;
  story <- eval (Story.new record) ;;
  (* this.stories.unshift(story) *)
  self <- this ;;
  set_this {| stories := story :: stories self |} ;;
  ret story.

End Methods.

End StoryList.

(* ===================================================================== *)
(** ** Derived notions used by the statements *)
(* ===================================================================== *)

(** Number of entries of a sequence of stories carrying the identifier
    [id]. *)
Definition count_storyId (id : value) (l : list Story.t) : nat :=
  length (filter (fun s => strict_eq (Story.storyId s) id) l).

(** A sequence of stories is set-like when no identifier occurs twice. *)
Fixpoint unique_storyIds (l : list Story.t) : bool :=
  match l with
  | [] => true
  | s :: rest =>
      negb (existsb (fun s' => strict_eq (Story.storyId s') (Story.storyId s)) rest)
      && unique_storyIds rest
  end.

(** The record [r] is what the story [s] was constructed from. *)
Definition story_of (r : value) (s : Story.t) : Prop :=
  Story.new r = Normal s.

(** The stories [l] are the records of the array [a], element by element
    and in order; an [a] that is [undefined] counts as the empty array. *)
Definition stories_of (a : value) (l : list Story.t) : Prop :=
  exists records,
    or_default (VArr []) a = VArr records /\ Forall2 story_of records l.

(** The user [u] holds the profile [user] of a response: what arrived
    under [favorites] is in [favorites], what arrived under [stories] is
    in [ownStories]. *)
Definition holds_profile (user : value) (u : User.t) : Prop :=
  exists favorites stories,
    get_prop "favorites" user = Normal favorites
    /\ get_prop "stories" user = Normal stories
    /\ stories_of favorites (User.favorites u)
    /\ stories_of stories (User.ownStories u).

(** The network answered some request with a JSON document whose [user]
    is [user]. *)
Definition answered_with (net : network) (user : value) : Prop :=
  exists req response userData,
    net req = Normal response
    /\ resp_json response = Normal userData
    /\ get_prop "user" userData = Normal user.

(** One call of a favourite mutator, as the view layer issues them. *)
Inductive fav_call : Type :=
| AddFavorite (story : Story.t)
| RemoveFavorite (story : Story.t).

Section Sessions.
Context {P : Platform}.

(** The receiver after one mutator call has settled against [net]. *)
Definition perform (net : network) (c : fav_call) (u : User.t) : User.t :=
  match c with
  | AddFavorite story => fst (run net (User.addFavorite story) u)
  | RemoveFavorite story => fst (run net (User.removeFavorite story) u)
  end.

(** A session: mutator calls in order, each against the network of its
    moment. *)
Fixpoint perform_all (calls : list (network * fav_call)) (u : User.t) : User.t :=
  match calls with
  | [] => u
  | (net, c) :: rest => perform_all rest (perform net c u)
  end.

(** A session in which [addFavorite] is only ever called on a story that
    [isFavorite] reports as not being a favourite at that moment. *)
Fixpoint adds_only_new (calls : list (network * fav_call)) (u : User.t) : bool :=
  match calls with
  | [] => true
  | (net, c) :: rest =>
      match c with
      | AddFavorite story => negb (User.isFavorite u story)
      | RemoveFavorite _ => true
      end
      && adds_only_new rest (perform net c u)
  end.

End Sessions.

(* ===================================================================== *)
(** ** Further notions: inputs the constructors accept, networks *)
(* ===================================================================== *)

(** [undefined] and [null]: the values that have no properties. *)
Definition nullish (v : value) : bool :=
  match v with
  | VUndefined | VNull => true
  | _ => false
  end.

(** An argument on which [a.map(s => new Story(s))] goes through, [a]
    being replaced by the empty array when it is [undefined]: an array
    none of whose elements is [undefined] or [null]. *)
Definition story_array (a : value) : bool :=
  match or_default (VArr []) a with
  | VArr items => forallb (fun r => negb (nullish r)) items
  | _ => false
  end.

(** The values that are not objects: [===] on them compares what they
    hold, in JavaScript as here. *)
Definition primitive (v : value) : bool :=
  match v with
  | VArr _ | VObj _ => false
  | _ => true
  end.

(** Stories whose identifiers are all primitive, as the strings the
    service assigns are. *)
Definition primitive_ids (l : list Story.t) : bool :=
  forallb (fun s => primitive (Story.storyId s)) l.

(** The story a mutator call is about. *)
Definition fav_call_story (c : fav_call) : Story.t :=
  match c with
  | AddFavorite story => story
  | RemoveFavorite story => story
  end.

(** A session all of whose calls are about stories with a primitive
    identifier. *)
Definition primitive_calls (calls : list (network * fav_call)) : bool :=
  primitive_ids (map (fun c => fav_call_story (snd c)) calls).

(** A transport on which every [fetch] is rejected with [e]. *)
Definition transport_down (net : network) (e : error) : Prop :=
  forall req, net req = Abrupt e.

(** A service that answers every request, with a body on which
    [response.json()] settles to [body]. *)
Definition answers_all (net : network) (body : completion value) : Prop :=
  forall req, exists response, net req = Normal response /\ resp_json response = body.

(** Runs a program over a part [T] of the state [S]: a call of a method
    on an object the state holds. *)
Fixpoint on_part {S T A} (get : S -> T) (put : T -> S -> S) (p : prog T A)
  : prog S A :=
  match p with
  | Ret a => Ret a
  | Throw e => Throw e
  | GetThis k => GetThis (fun s => on_part get put (k (get s)))
  | SetThis t k => GetThis (fun s => SetThis (put t s) (on_part get put k))
  | ConsoleError msg e k => ConsoleError msg e (on_part get put k)
  | AwaitFetch req k => AwaitFetch req (fun r => on_part get put (k r))
  end.

(** A call of a static method from code that has a state. *)
Definition static {S A} (p : prog unit A) : prog S A :=
  on_part (fun _ => tt) (fun _ s => s) p.

(** The double-quote and line-feed characters, for the templates. *)
Definition dq : string := String "034"%char EmptyString.
Definition nl : string := String "010"%char EmptyString.

(* ===================================================================== *)
(** ** The story views (the second part of js/models.js) *)
(* ===================================================================== *)

Module Stories.

(** A list element of the page, [$allStoriesList] or
    [$favoritedStories]: the markup of the items put into it, in document
    order, and whether it is displayed. *)
Record Listing : Type := {
  items : list string;
  shown : bool
}.

(** [$list.empty()], [$list.append($item)], [$list.prepend($item)],
    [$list.show()] *)
Definition empty (l : Listing) : Listing :=
  {| items := []; shown := shown l |}.

Definition append (item : string) (l : Listing) : Listing :=
  {| items := (items l ++ [item])%list; shown := shown l |}.

Definition prepend (item : string) (l : Listing) : Listing :=
  {| items := item :: items l; shown := shown l |}.

Definition show (l : Listing) : Listing :=
  {| items := items l; shown := true |}.

(** A control of a form: what it holds now and what it held when the
    document was loaded. *)
Record Control : Type := {
  held : value;
  initially : value
}.

(** [$form.trigger("reset")], which ends in the [reset()] of the form:
    every control goes back to what it held initially. *)
Definition reset (form : list Control) : list Control :=
  map (fun c => {| held := initially c; initially := initially c |}) form.

(** What the functions of this part read and write: the globals
    [storyList] and [currentUser] (either may still be [undefined]), the
    loading message (whether it is still in the document), the two lists
    and the controls of the story form, [$submitStoryForm]. *)
Record Page : Type := {
  storyList : option StoryList.t;
  currentUser : option User.t;
  storiesLoadingMsg : bool;
  allStoriesList : Listing;
  favoritedStories : Listing;
  submitStoryForm : list Control
}.

Definition set_storyList (p : Page) (l : option StoryList.t) : Page :=
  {| storyList := l; currentUser := currentUser p;
     storiesLoadingMsg := storiesLoadingMsg p;
     allStoriesList := allStoriesList p;
     favoritedStories := favoritedStories p;
     submitStoryForm := submitStoryForm p |}.

Definition set_currentUser (p : Page) (u : option User.t) : Page :=
  {| storyList := storyList p; currentUser := u;
     storiesLoadingMsg := storiesLoadingMsg p;
     allStoriesList := allStoriesList p;
     favoritedStories := favoritedStories p;
     submitStoryForm := submitStoryForm p |}.

Definition set_storiesLoadingMsg (p : Page) (b : bool) : Page :=
  {| storyList := storyList p; currentUser := currentUser p;
     storiesLoadingMsg := b;
     allStoriesList := allStoriesList p;
     favoritedStories := favoritedStories p;
     submitStoryForm := submitStoryForm p |}.

Definition set_allStoriesList (p : Page) (l : Listing) : Page :=
  {| storyList := storyList p; currentUser := currentUser p;
     storiesLoadingMsg := storiesLoadingMsg p;
     allStoriesList := l;
     favoritedStories := favoritedStories p;
     submitStoryForm := submitStoryForm p |}.

Definition set_favoritedStories (p : Page) (l : Listing) : Page :=
  {| storyList := storyList p; currentUser := currentUser p;
     storiesLoadingMsg := storiesLoadingMsg p;
     allStoriesList := allStoriesList p;
     favoritedStories := l;
     submitStoryForm := submitStoryForm p |}.

Definition set_submitStoryForm (p : Page) (form : list Control) : Page :=
  {| storyList := storyList p; currentUser := currentUser p;
     storiesLoadingMsg := storiesLoadingMsg p;
     allStoriesList := allStoriesList p;
     favoritedStories := favoritedStories p;
     submitStoryForm := form |}.

(** [function generateStarHTML(story)], reading the global
    [currentUser]. *)
Definition generateStarHTML (currentUser : option User.t) (story : Story.t)
  : string :=
  match currentUser with
  | Some user =>
      let starClass :=
        if User.isFavorite user story then "bi-star-fill" else "bi-star" in
      "<span class=" ++ dq ++ "star" ++ dq ++ ">" ++ nl ++
      "        <i class=" ++ dq ++ "bi " ++ starClass ++ dq ++ "></i>" ++
      nl ++ "      </span>"
  | None => EmptyString
  end.

(** The class attribute of an element, and [$e.hasClass(c)],
    [$e.removeClass(c)], [$e.addClass(c)] on it. *)
Definition hasClass (c : string) (classes : list string) : bool :=
  existsb (String.eqb c) classes.

Definition removeClass (c : string) (classes : list string) : list string :=
  filter (fun c' => negb (String.eqb c c')) classes.

Definition addClass (c : string) (classes : list string) : list string :=
  if hasClass c classes then classes else (classes ++ [c])%list.

(** What a click on a star concerns: the class attribute of the element
    clicked ([evt.target]) and the page. *)
Record Click : Type := {
  starIcon : list string;
  page : Page
}.

Definition set_starIcon (c : Click) (classes : list string) : Click :=
  {| starIcon := classes; page := page c |}.

Definition set_page (c : Click) (p : Page) : Click :=
  {| starIcon := starIcon c; page := p |}.

Section Functions.
Context {P : Platform}.

(** [function generateStoryMarkup(story)]; the result is the markup
    handed to [$]. *)
Definition generateStoryMarkup (currentUser : option User.t) (story : Story.t)
  : completion string :=
  hostName <- Story.getHostName story ;;
  id <- ToString (Story.storyId story) ;;
  let star := generateStarHTML currentUser story in
  url <- ToString (Story.url story) ;;
  title <- ToString (Story.title story) ;;
  author <- ToString (Story.author story) ;;
  username <- ToString (Story.username story) ;;
  ret (nl ++ "      <li id=" ++ dq ++ id ++ dq ++ ">" ++ nl ++ "        " ++
       star ++ nl ++ "        <a href=" ++
       dq ++ url ++ dq ++ " target=" ++ dq ++ "a_blank" ++ dq ++
       " class=" ++ dq ++ "story-link" ++ dq ++ ">" ++ nl ++ "          " ++
       title ++ nl ++ "        </a>" ++ nl ++ "        <small class=" ++
       dq ++ "story-hostname" ++ dq ++ ">(" ++ hostName ++ ")</small>" ++
       nl ++ "        <small class=" ++ dq ++ "story-author" ++ dq ++
       ">by " ++ author ++ "</small>" ++ nl ++ "        <small class=" ++
       dq ++ "story-user" ++ dq ++ ">posted by " ++ username ++
       "</small>" ++ nl ++ "      </li>" ++ nl ++ "    ").

(** The loop of [putStoriesOnPage]:
    [for (let story of storyList.stories) { ... $allStoriesList.append($story); }] *)
Fixpoint putStoriesOnPage_loop (stories : list Story.t) : prog Page unit :=
  match stories with
  | [] => ret tt
  | story :: rest =>
      page <- this ;;
      item <- eval (generateStoryMarkup (currentUser page) story) ;;
      set_this (set_allStoriesList page (append item (allStoriesList page))) ;;
      putStoriesOnPage_loop rest
  end.

(** [function putStoriesOnPage()] (its [console.debug] line writes to the
    console only). *)
Definition putStoriesOnPage : prog Page unit :=
  page <- this ;;
  set_this (set_allStoriesList page (empty (allStoriesList page))) ;;
  page <- this ;;
  match storyList page with
  | None => raise TypeError
  | Some list => putStoriesOnPage_loop (StoryList.stories list)
  end ;;
  page <- this ;;
  set_this (set_allStoriesList page (show (allStoriesList page))).

(** [async function getAndShowStoriesOnStart()] *)
Definition getAndShowStoriesOnStart : prog Page unit :=
  list <- static StoryList.getStories ;;
  page <- this ;;
  set_this (set_storyList page (Some list)) ;;
  page <- this ;;
  set_this (set_storiesLoadingMsg page false) ;;
  putStoriesOnPage.

(** The callback of [displayFavoritedStories], once per favourite:
    [currentUser.favorites.forEach(s => { ... $favoritedStories.append($story); })] *)
Fixpoint displayFavoritedStories_each (favorites : list Story.t)
  : prog Page unit :=
  match favorites with
  | [] => ret tt
  | s :: rest =>
      page <- this ;;
      item <- eval (generateStoryMarkup (currentUser page) s) ;;
      set_this (set_favoritedStories page (append item (favoritedStories page))) ;;
      displayFavoritedStories_each rest
  end.

(** [function displayFavoritedStories()] *)
Definition displayFavoritedStories : prog Page unit :=
  page <- this ;;
  set_this (set_favoritedStories page (empty (favoritedStories page))) ;;
  page <- this ;;
  match currentUser page with
  | None => raise TypeError
  | Some user => displayFavoritedStories_each (User.favorites user)
  end ;;
  page <- this ;;
  set_this (set_favoritedStories page (show (favoritedStories page))).

(** [async function submitAndShowNewStory(evt)]; [author], [title] and
    [url] are what [$("#author-input").val()], [$("#title-input").val()]
    and [$("#url-input").val()] give when the function starts. *)
Definition submitAndShowNewStory (author title url : value) : prog Page unit :=
  let newStory := VObj [("author", author); ("title", title); ("url", url)] in
  page <- this ;;
  story <-
    match storyList page, currentUser page with
    | Some list, Some user =>
        on_part (fun p => match storyList p with Some l => l | None => list end)
                (fun l p => set_storyList p (Some l))
                (StoryList.addStory user newStory)
    | _, _ => raise TypeError
    end ;;
  page <- this ;;
  item <- eval (generateStoryMarkup (currentUser page) story) ;;
  set_this (set_allStoriesList page (prepend item (allStoriesList page))) ;;
  page <- this ;;
  set_this (set_submitStoryForm page (reset (submitStoryForm page))).

(** [async function selectAndUnselectFavoriteStory(evt)];
    [starStoryId] is the [id] attribute of the list item around the
    element clicked. *)
Definition selectAndUnselectFavoriteStory (starStoryId : value)
  : prog Click unit :=
  story <- static (Story.getStory starStoryId) ;;
  click <- this ;;
  if hasClass "bi-star" (starIcon click) then
    set_this (set_starIcon click
                (addClass "bi-star-fill" (removeClass "bi-star" (starIcon click)))) ;;
    click <- this ;;
    match currentUser (page click) with
    | None => raise TypeError
    | Some user =>
        on_part (fun c => match currentUser (page c) with
                          | Some u => u
                          | None => user
                          end)
                (fun u c => set_page c (set_currentUser (page c) (Some u)))
                (User.addFavorite story)
    end
  else
    set_this (set_starIcon click
                (addClass "bi-star" (removeClass "bi-star-fill" (starIcon click)))) ;;
    click <- this ;;
    match currentUser (page click) with
    | None => raise TypeError
    | Some user =>
        on_part (fun c => match currentUser (page c) with
                          | Some u => u
                          | None => user
                          end)
                (fun u c => set_page c (set_currentUser (page c) (Some u)))
                (User.removeFavorite story)
    end.

(** The list of all stories is in step with [storyList]: its items are
    the markup of the stories of [storyList], in their order. *)
Definition in_step (page : Page) : Prop :=
  exists stored,
    storyList page = Some stored
    /\ mapM (generateStoryMarkup (currentUser page)) (StoryList.stories stored)
       = Normal (items (allStoriesList page)).

End Functions.

End Stories.

(* ===================================================================== *)
(** ** An executable platform, for running the methods on examples *)
(* ===================================================================== *)

Module Demo.

Definition digits (n : Z) : string :=
  DecimalString.NilZero.string_of_int (Z.to_int n).

(** [`${v}`] on primitives; a composite value is not needed by the
    examples and is rendered the way a plain object is. *)
Definition to_string (v : value) : completion string :=
  match v with
  | VUndefined => Normal "undefined"
  | VNull => Normal "null"
  | VBool true => Normal "true"
  | VBool false => Normal "false"
  | VNum n => Normal (digits n)
  | VStr s => Normal s
  | VArr _ | VObj _ => Normal "[object Object]"
  end.

(** Length of the prefix of [s] that stops before the first ['/'], ['?']
    or ['#']. *)
Fixpoint authority_length (s : string) : nat :=
  match s with
  | EmptyString => 0
  | String c rest =>
      if (Ascii.eqb c "/" || Ascii.eqb c "?" || Ascii.eqb c "#")%char%bool
      then 0
      else S (authority_length rest)
  end.

(** A URL parser for the shape [scheme://host/rest] only; every other
    string is rejected the way [new URL] rejects a string that is not an
    absolute URL. *)
Definition parse_url (s : string) : completion URL :=
  match index 0 "://" s with
  | Some (S n) =>
      let rest := substring (S n + 3) (String.length s - (S n + 3)) s in
      let k := authority_length rest in
      match k with
      | O => Abrupt TypeError
      | _ =>
          let authority := substring 0 k rest in
          let path := substring k (String.length rest - k) rest in
          Normal {| protocol := substring 0 (S n) s ++ ":";
                    host := authority;
                    hostname := authority;
                    port := "";
                    pathname := if String.eqb path "" then "/" else path |}
      end
  | _ => Abrupt TypeError
  end.

Definition new_url (v : value) : completion URL :=
  s <- to_string v ;;
  parse_url s.

(** [key=value&key=value], without percent-encoding. *)
Fixpoint search_params (init : list (string * value)) : completion string :=
  match init with
  | [] => Normal ""
  | (k, v) :: rest =>
      s <- to_string v ;;
      tail <- search_params rest ;;
      ret (k ++ "=" ++ s ++ (if String.eqb tail "" then "" else "&" ++ tail))
  end.

Definition platform : Platform :=
  {| ToString := to_string; new_URL := new_url; URLSearchParams := search_params |}.

(** A story record as the service sends it. *)
Definition record (id title author url user : string) : value :=
  VObj [("storyId", VStr id); ("title", VStr title); ("author", VStr author);
        ("url", VStr url); ("username", VStr user);
        ("createdAt", VStr "2023-01-01T00:00:00.000Z")].

Definition story (id title author url user : string) : Story.t :=
  {| Story.storyId := VStr id; Story.title := VStr title;
     Story.author := VStr author; Story.url := VStr url;
     Story.username := VStr user;
     Story.createdAt := VStr "2023-01-01T00:00:00.000Z" |}.

(** A service that answers every request with status [status] and the
    JSON document [body]. *)
Definition answering (status : Z) (body : value) : network :=
  fun _ => Normal {| resp_status := status; resp_json := Normal body |}.

(** A transport that is down. *)
Definition offline : network := fun _ => Abrupt NetworkError.

(** A service whose body is not JSON. *)
Definition garbled : network :=
  fun _ => Normal {| resp_status := 200; resp_json := Abrupt SyntaxError |}.

(** A user record as the service sends it. *)
Definition user_record (favorites stories : list value) : value :=
  VObj [("username", VStr "u"); ("name", VStr "U");
        ("createdAt", VStr "2023-01-01T00:00:00.000Z");
        ("favorites", VArr favorites); ("stories", VArr stories)].

Definition one : Story.t := story "1" "t1" "a1" "http://one.com" "u".
Definition two : Story.t := story "2" "t2" "a2" "http://two.com" "u".
Definition three : Story.t := story "3" "T" "A" "http://x.com" "u".

(** The logged-in user of the examples, with no favourites yet. *)
Definition current_user : User.t :=
  {| User.username := VStr "u"; User.name := VStr "U";
     User.createdAt := VStr "2023-01-01T00:00:00.000Z";
     User.favorites := []; User.ownStories := [];
     User.loginToken := VStr "tok" |}.

(** The payload of the story form. *)
Definition new_story : value :=
  VObj [("author", VStr "A"); ("title", VStr "T"); ("url", VStr "http://x.com")].

(** The answer of the service to the creation of story "3". *)
Definition created : value :=
  VObj [("story", record "3" "T" "A" "http://x.com" "u")].

(** The answer of the service to a login of the user of the examples. *)
Definition logged_in : value :=
  VObj [("user", user_record [] []); ("token", VStr "tok")].

(** A profile with one favourite and one own story; the key
    [ownStories] is not one the service uses. *)
Definition profile : value :=
  VObj [("username", VStr "u"); ("name", VStr "U");
        ("createdAt", VStr "2023-01-01T00:00:00.000Z");
        ("favorites", VArr [record "1" "t1" "a1" "http://one.com" "u"]);
        ("stories", VArr [record "2" "t2" "a2" "http://two.com" "u"]);
        ("ownStories", VArr [record "3" "T" "A" "http://x.com" "u"])].

Definition profile_answer : value :=
  VObj [("user", profile); ("token", VStr "tok")].

(** The user that profile describes. *)
Definition profiled_user : User.t :=
  {| User.username := VStr "u"; User.name := VStr "U";
     User.createdAt := VStr "2023-01-01T00:00:00.000Z";
     User.favorites := [one]; User.ownStories := [two];
     User.loginToken := VStr "tok" |}.

(** A profile record without [favorites] and [ownStories]. *)
Definition bare_profile : value :=
  VObj [("username", VStr "u"); ("name", VStr "U");
        ("createdAt", VStr "2023-01-01T00:00:00.000Z")].

(** A story as a news site would be linked, and one whose [url] is not
    a URL. *)
Definition news_record : value :=
  record "7" "News" "N" "https://news.example.com/a/b" "u".

Definition news : Story.t :=
  story "7" "News" "N" "https://news.example.com/a/b" "u".

Definition broken : Story.t :=
  story "8" "Broken" "B" "not a url" "u".

(** The answer of the service to the listing of stories "1" and "2". *)
Definition listed : value :=
  VObj [("stories", VArr [record "1" "t1" "a1" "http://one.com" "u";
                          record "2" "t2" "a2" "http://two.com" "u"])].

(** The document the service sends with an error status. *)
Definition error_document : value :=
  VObj [("error", VObj [("status", VNum 401);
                        ("title", VStr "Unauthorized");
                        ("message", VStr "Invalid token.")])].

(** A user whose favourites are stories "1" and "2". *)
Definition fan : User.t :=
  {| User.username := VStr "u"; User.name := VStr "U";
     User.createdAt := VStr "2023-01-01T00:00:00.000Z";
     User.favorites := [one; two]; User.ownStories := [];
     User.loginToken := VStr "tok" |}.

(** A page still loading, logged in as the user of the examples, whose
    list of all stories holds a stale item and whose story form has been
    filled in. *)
Definition page (stories : list Story.t) : Stories.Page :=
  {| Stories.storyList := Some {| StoryList.stories := stories |};
     Stories.currentUser := Some current_user;
     Stories.storiesLoadingMsg := true;
     Stories.allStoriesList :=
       {| Stories.items := ["stale"]; Stories.shown := false |};
     Stories.favoritedStories :=
       {| Stories.items := []; Stories.shown := false |};
     Stories.submitStoryForm :=
       [{| Stories.held := VStr "A"; Stories.initially := VStr "" |};
        {| Stories.held := VStr "T"; Stories.initially := VStr "" |};
        {| Stories.held := VStr "http://x.com"; Stories.initially := VStr "" |}] |}.

(** The same page before anybody logged in. *)
Definition anonymous_page : Stories.Page :=
  Stories.set_currentUser (page [one; two]) None.

(** The item that shows a story to the user of the examples. *)
Definition item (user : option User.t) (s : Story.t) : string :=
  match Stories.generateStoryMarkup (P := platform) user s with
  | Normal markup => markup
  | Abrupt _ => EmptyString
  end.

(** The page once its stories are on it. *)
Definition shown_page : Stories.Page :=
  Stories.set_allStoriesList (page [one; two])
    {| Stories.items := [item (Some current_user) one;
                         item (Some current_user) two];
       Stories.shown := true |}.

(** The answer of the service to the creation of a story whose [url] is
    not a URL. *)
Definition created_broken : value :=
  VObj [("story", record "8" "Broken" "B" "not a url" "u")].

(** A click on an empty star and one on a filled star, on a page whose
    user has stories "1" and "2" as favourites. *)
Definition empty_star : Stories.Click :=
  {| Stories.starIcon := ["bi"; "bi-star"];
     Stories.page := Stories.set_currentUser (page [one; two; three]) (Some fan) |}.

Definition filled_star : Stories.Click :=
  {| Stories.starIcon := ["bi"; "bi-star-fill"];
     Stories.page := Stories.set_currentUser (page [one; two; three]) (Some fan) |}.

(** The answer of the service to a login of a user whose profile lists
    story "1" twice among the favourites. *)
Definition logged_in_twice : value :=
  VObj [("user", user_record [record "1" "t1" "a1" "http://one.com" "u";
                              record "1" "t1" "a1" "http://one.com" "u"] []);
        ("token", VStr "tok")].

(** A click on an element with the classes [classes] inside the item of
    story "3", on a service that knows that story: the click as the
    handler leaves it. *)
Definition clicked (classes : list string) (p : Stories.Page) : Stories.Click :=
  fst (run (answering 200 created)
           (Stories.selectAndUnselectFavoriteStory (P := platform) (VStr "3"))
           {| Stories.starIcon := classes; Stories.page := p |}).

(** Three clicks in the item of story "3", which is not a favourite and
    whose icon shows an empty star: on the [span] around the icon, on
    that [span] again, then on the icon. *)
Definition three_clicks : Stories.Click :=
  clicked ["bi"; "bi-star"]
    (Stories.page
       (clicked
          (Stories.starIcon
             (clicked ["star"]
                (Stories.set_currentUser (page [one; two; three]) (Some fan))))
          (Stories.page
             (clicked ["star"]
                (Stories.set_currentUser (page [one; two; three]) (Some fan)))))).

(** The user [profile] describes when the answer carries no token. *)
Definition tokenless_user : User.t :=
  {| User.username := VStr "u"; User.name := VStr "U";
     User.createdAt := VStr "2023-01-01T00:00:00.000Z";
     User.favorites := [one]; User.ownStories := [two];
     User.loginToken := VUndefined |}.

End Demo.

(* ===================================================================== *)
(** ** Basic facts about values and runs *)
(* ===================================================================== *)

Section value_induction.
Variable Q : value -> Prop.
Hypothesis Q_undefined : Q VUndefined.
Hypothesis Q_null : Q VNull.
Hypothesis Q_bool : forall b, Q (VBool b).
Hypothesis Q_num : forall n, Q (VNum n).
Hypothesis Q_str : forall s, Q (VStr s).
Hypothesis Q_arr : forall items, Forall Q items -> Q (VArr items).
Hypothesis Q_obj :
  forall props, Forall (fun kv => Q (snd kv)) props -> Q (VObj props).

Fixpoint value_ind (v : value) : Q v :=
  match v with
  | VUndefined => Q_undefined
  | VNull => Q_null
  | VBool b => Q_bool b
  | VNum n => Q_num n
  | VStr s => Q_str s
  | VArr items =>
      Q_arr
        ((fix all (l : list value) : Forall Q l :=
            match l with
            | [] => Forall_nil Q
            | x :: rest => Forall_cons x (value_ind x) (all rest)
            end) items)
  | VObj props =>
      Q_obj
        ((fix all (l : list (string * value))
            : Forall (fun kv => Q (snd kv)) l :=
            match l with
            | [] => Forall_nil _
            | kv :: rest => Forall_cons kv (value_ind (snd kv)) (all rest)
            end) props)
  end.
End value_induction.

(** [===] on the values modelled decides equality. *)
Lemma strict_eq_spec : forall a b, strict_eq a b = true <-> a = b.
Proof.
  induction a as [ | | x | x | x | xs IH | ps IH ] using value_ind;
    destruct b as [ | | y | y | y | ys | qs ]; simpl;
    try (split; [discriminate | intros E; discriminate E]);
    try (split; reflexivity).
  - rewrite Bool.eqb_true_iff. split; congruence.
  - rewrite Z.eqb_eq. split; congruence.
  - rewrite String.eqb_eq. split; congruence.
  - revert ys. induction IH as [ | x xs Hx _ IHxs ]; intros [ | y ys ];
      try (split; [discriminate | intros E; discriminate E]);
      try (split; reflexivity).
    rewrite andb_true_iff, Hx. specialize (IHxs ys).
    split.
    + intros [-> H]. apply IHxs in H. congruence.
    + intros E. injection E as -> E. split; [reflexivity | ].
      apply IHxs. congruence.
  - revert qs. induction IH as [ | [k x] ps Hx _ IHps ]; intros [ | [k' y] qs ];
      try (split; [discriminate | intros E; discriminate E]);
      try (split; reflexivity).
    simpl in Hx. rewrite !andb_true_iff, Hx, String.eqb_eq.
    specialize (IHps qs).
    split.
    + intros [[-> ->] H]. apply IHps in H. congruence.
    + intros E. injection E as -> -> E. repeat split.
      apply IHps. congruence.
Qed.

Lemma strict_eq_refl : forall a, strict_eq a a = true.
Proof. intros a. apply strict_eq_spec. reflexivity. Qed.

(** The loop of [isFavorite] is a membership test on identifiers. *)
Lemma isFavorite_loop_existsb : forall l story,
  User.isFavorite_loop l story
  = existsb (fun s => strict_eq (Story.storyId s) (Story.storyId story)) l.
Proof.
  induction l as [ | s rest IH ]; intros story; simpl; [reflexivity | ].
  rewrite IH. destruct (strict_eq _ _); reflexivity.
Qed.

Lemma isFavorite_loop_app : forall l1 l2 story,
  User.isFavorite_loop (l1 ++ l2) story
  = User.isFavorite_loop l1 story || User.isFavorite_loop l2 story.
Proof.
  intros. rewrite !isFavorite_loop_existsb. apply existsb_app.
Qed.

(** Takes one [eval c] step of a run by cases on [c]. *)
Ltac step_eval :=
  match goal with
  | |- context [ eval ?c ] => destruct c; simpl
  | |- context [ prog_bind (match ?c with _ => _ end) _ ] => destruct c; simpl
  | |- context [ run _ (match ?c with _ => _ end) _ ] => destruct c; simpl
  | |- context [ start (match ?c with _ => _ end) _ ] => destruct c; simpl
  end.

Section FavoriteRuns.
Context {P : Platform}.

(** The receiver once [addFavorite] has settled, whatever the network
    did. *)
Lemma run_addFavorite : forall net u story,
  fst (run net (User.addFavorite story) u)
  = User.set_favorites u (User.favorites u ++ [story]).
Proof.
  intros. unfold User.addFavorite. simpl.
  repeat step_eval; reflexivity.
Qed.

(** The receiver when [addFavorite] hands control back at its [await]. *)
Lemma start_addFavorite : forall u story,
  fst (start (User.addFavorite story) u)
  = User.set_favorites u (User.favorites u ++ [story]).
Proof.
  intros. unfold User.addFavorite. simpl.
  repeat step_eval; reflexivity.
Qed.

Lemma run_removeFavorite : forall net u story,
  fst (run net (User.removeFavorite story) u)
  = User.set_favorites u
      (filter (fun s => negb (strict_eq (Story.storyId s) (Story.storyId story)))
              (User.favorites u)).
Proof.
  intros. unfold User.removeFavorite. simpl.
  repeat step_eval; reflexivity.
Qed.

Lemma start_removeFavorite : forall u story,
  fst (start (User.removeFavorite story) u)
  = User.set_favorites u
      (filter (fun s => negb (strict_eq (Story.storyId s) (Story.storyId story)))
              (User.favorites u)).
Proof.
  intros. unfold User.removeFavorite. simpl.
  repeat step_eval; reflexivity.
Qed.

End FavoriteRuns.

Lemma isFavorite_loop_filter_out : forall l story,
  User.isFavorite_loop
    (filter (fun s => negb (strict_eq (Story.storyId s) (Story.storyId story))) l)
    story = false.
Proof.
  induction l as [ | s rest IH ]; intros story; simpl; [reflexivity | ].
  destruct (strict_eq (Story.storyId s) (Story.storyId story)) eqn:E; simpl.
  - apply IH.
  - rewrite E. apply IH.
Qed.

(* ===================================================================== *)
(** ** StoryList.addStory *)
(* ===================================================================== *)

(** C1.  When the remote creation succeeds -- the service answers the
    POST that [addStory] issues with a JSON document whose [story] is a
    record -- [addStory] returns the [Story] built from that record and
    leaves it at index 0 of [this.stories]: the former elements follow in
    their former order and the length has grown by exactly one. *)
Theorem addStory_prepends :
  forall (net : network) (self : StoryList.t) (currentUser : User.t)
         (newStory author title url : value)
         (response : Response) (data record : value) (story : Story.t),
    get_prop "author" newStory = Normal author ->
    get_prop "title" newStory = Normal title ->
    get_prop "url" newStory = Normal url ->
    net {| req_url := BASE_URL ++ "/stories";
           req_method := POST;
           req_body :=
             Some (VObj [("token", User.loginToken currentUser);
                         ("story", VObj [("author", author);
                                         ("title", title);
                                         ("url", url)])]);
           req_headers := [("Content-Type", "application/json")] |}
      = Normal response ->
    resp_json response = Normal data ->
    get_prop "story" data = Normal record ->
    Story.new record = Normal story ->
    let after := fst (run net (StoryList.addStory currentUser newStory) self) in
    snd (run net (StoryList.addStory currentUser newStory) self) = Normal story
    /\ StoryList.stories after = story :: StoryList.stories self
    /\ nth_error (StoryList.stories after) 0 = Some story
    /\ (forall i, nth_error (StoryList.stories after) (S i)
                  = nth_error (StoryList.stories self) i)
    /\ length (StoryList.stories after) = S (length (StoryList.stories self)).
Proof.
  intros net self currentUser newStory author title url response data record
         story Hauthor Htitle Hurl Hnet Hjson Hrecord Hstory after.
  assert (Hrun : run net (StoryList.addStory currentUser newStory) self
                 = ({| StoryList.stories := story :: StoryList.stories self |},
                    Normal story)).
  { unfold StoryList.addStory, fetch, json.
    rewrite Hauthor, Htitle, Hurl. simpl. simpl in Hnet.
    rewrite Hnet. simpl. rewrite Hjson. simpl.
    rewrite Hrecord. simpl. rewrite Hstory. reflexivity. }
  subst after. rewrite Hrun. simpl.
  repeat split; reflexivity.
Qed.

(** The scenario of the specification: stored stories ["1"; "2"], a
    service echoing story ["3"]; the list becomes ["3"; "1"; "2"]. *)
Lemma addStory_prepends_witness :
  snd (run (Demo.answering 201 Demo.created)
           (StoryList.addStory Demo.current_user Demo.new_story)
           {| StoryList.stories := [Demo.one; Demo.two] |})
  = Normal Demo.three
  /\ StoryList.stories
       (fst (run (Demo.answering 201 Demo.created)
                 (StoryList.addStory Demo.current_user Demo.new_story)
                 {| StoryList.stories := [Demo.one; Demo.two] |}))
     = [Demo.three; Demo.one; Demo.two].
Proof.
  pose proof
    (@addStory_prepends
       (Demo.answering 201 Demo.created)
       {| StoryList.stories := [Demo.one; Demo.two] |}
       Demo.current_user Demo.new_story
       (VStr "A") (VStr "T") (VStr "http://x.com")
       {| resp_status := 201; resp_json := Normal Demo.created |}
       Demo.created
       (Demo.record "3" "T" "A" "http://x.com" "u")
       Demo.three
       eq_refl eq_refl eq_refl eq_refl eq_refl eq_refl eq_refl) as H.
  simpl in H. destruct H as (Hret & Hlist & _).
  split; [exact Hret | exact Hlist].
Defined.

(* ===================================================================== *)
(** ** User.addFavorite, User.removeFavorite, User.isFavorite *)
(* ===================================================================== *)

(** C3.  [u.isFavorite(s)] is true once [u.addFavorite(s)] has applied
    its local mutation and false once [u.removeFavorite(s)] has: this
    holds at the point where the call is suspended on its request, and
    still holds after the call settled, whatever the network did; the
    receiver after the call is the receiver at the suspension point (no
    rollback). *)
Theorem isFavorite_after_local_mutation :
  forall (P : Platform) (net : network) (u : User.t) (s : Story.t),
    User.isFavorite (fst (start (User.addFavorite s) u)) s = true
    /\ User.isFavorite (fst (run net (User.addFavorite s) u)) s = true
    /\ fst (run net (User.addFavorite s) u) = fst (start (User.addFavorite s) u)
    /\ User.isFavorite (fst (start (User.removeFavorite s) u)) s = false
    /\ User.isFavorite (fst (run net (User.removeFavorite s) u)) s = false
    /\ fst (run net (User.removeFavorite s) u)
       = fst (start (User.removeFavorite s) u).
Proof.
  intros P net u s.
  rewrite run_addFavorite, start_addFavorite,
          run_removeFavorite, start_removeFavorite.
  unfold User.isFavorite. simpl.
  rewrite isFavorite_loop_app, isFavorite_loop_filter_out. simpl.
  rewrite strict_eq_refl, orb_true_r.
  repeat split; reflexivity.
Qed.

(** C4.  A second [removeFavorite(s)] leaves the receiver, and so its
    [favorites], exactly as the first call left it, whatever the network
    did on either call. *)
Theorem removeFavorite_idempotent :
  forall (P : Platform) (net1 net2 : network) (u : User.t) (s : Story.t),
    let once := fst (run net1 (User.removeFavorite s) u) in
    let twice := fst (run net2 (User.removeFavorite s) once) in
    User.favorites twice = User.favorites once /\ twice = once.
Proof.
  intros P net1 net2 u s once twice. subst once twice.
  rewrite !run_removeFavorite. unfold User.set_favorites. simpl.
  assert (E : forall l,
             filter (fun x => negb (strict_eq (Story.storyId x) (Story.storyId s)))
               (filter (fun x => negb (strict_eq (Story.storyId x) (Story.storyId s))) l)
             = filter (fun x => negb (strict_eq (Story.storyId x) (Story.storyId s))) l).
  { induction l as [ | x l IH ]; simpl; [reflexivity | ].
    destruct (negb (strict_eq (Story.storyId x) (Story.storyId s))) eqn:Hx; simpl.
    - rewrite Hx, IH. reflexivity.
    - exact IH. }
  rewrite E. split; reflexivity.
Qed.

(** C9.  [addFavorite] and [removeFavorite] write the [favorites] field
    of the receiver and nothing else: [username], [name], [createdAt],
    [ownStories] and [loginToken] are as before, whatever the network
    did.  The story argument is only read: [addFavorite] stores it as it
    was given, and [removeFavorite] keeps the remaining entries as they
    were. *)
Theorem favorite_mutators_frame :
  forall (P : Platform) (net : network) (u : User.t) (s : Story.t),
    let added := fst (run net (User.addFavorite s) u) in
    let removed := fst (run net (User.removeFavorite s) u) in
    (User.username added = User.username u
     /\ User.name added = User.name u
     /\ User.createdAt added = User.createdAt u
     /\ User.ownStories added = User.ownStories u
     /\ User.loginToken added = User.loginToken u
     /\ User.favorites added = (User.favorites u ++ [s])%list)
    /\ (User.username removed = User.username u
        /\ User.name removed = User.name u
        /\ User.createdAt removed = User.createdAt u
        /\ User.ownStories removed = User.ownStories u
        /\ User.loginToken removed = User.loginToken u
        /\ (forall x, In x (User.favorites removed) -> In x (User.favorites u))).
Proof.
  intros P net u s added removed. subst added removed.
  rewrite run_addFavorite, run_removeFavorite. simpl.
  repeat split; try reflexivity.
  intros x Hx. apply filter_In in Hx. tauto.
Qed.

(* ===================================================================== *)
(** ** The favourites of a user as a set *)
(* ===================================================================== *)

Local Open Scope list_scope.

Lemma count_storyId_app : forall id l1 l2,
  count_storyId id (l1 ++ l2) = count_storyId id l1 + count_storyId id l2.
Proof.
  intros. unfold count_storyId. rewrite filter_app. apply length_app.
Qed.

Lemma count_storyId_filter : forall id p l,
  count_storyId id (filter p l) <= count_storyId id l.
Proof.
  intros id p. unfold count_storyId.
  induction l as [ | s l IH ]; simpl; [lia | ].
  destruct (p s); simpl; destruct (strict_eq (Story.storyId s) id); simpl; lia.
Qed.

Lemma count_storyId_absent : forall id l,
  existsb (fun s => strict_eq (Story.storyId s) id) l = false <->
  count_storyId id l = 0.
Proof.
  intros id. unfold count_storyId.
  induction l as [ | s l IH ]; simpl; [tauto | ].
  destruct (strict_eq (Story.storyId s) id); simpl.
  - split; discriminate.
  - exact IH.
Qed.

(** [unique_storyIds] says what its name says: no identifier is carried
    by more than one entry. *)
Lemma unique_storyIds_spec : forall l,
  unique_storyIds l = true <-> forall id, count_storyId id l <= 1.
Proof.
  induction l as [ | s l IH ]; simpl.
  - split; [intros _ id; unfold count_storyId; simpl; lia | reflexivity].
  - rewrite andb_true_iff, negb_true_iff, IH, count_storyId_absent.
    split.
    + intros [Habsent Hrest] id.
      change (s :: l) with ([s] ++ l). rewrite count_storyId_app.
      unfold count_storyId at 1. simpl.
      destruct (strict_eq (Story.storyId s) id) eqn:E; simpl.
      * apply strict_eq_spec in E. subst id. lia.
      * apply Hrest.
    + intros H. split.
      * specialize (H (Story.storyId s)).
        change (s :: l) with ([s] ++ l) in H. rewrite count_storyId_app in H.
        unfold count_storyId at 1 in H. simpl in H.
        rewrite strict_eq_refl in H. simpl in H. lia.
      * intros id. specialize (H id).
        change (s :: l) with ([s] ++ l) in H. rewrite count_storyId_app in H.
        lia.
Qed.

Section FavoritesAsASet.
Context {P : Platform}.

(** [removeFavorite] keeps a set-like [favorites] set-like. *)
Lemma removeFavorite_keeps_unique : forall net u story,
  unique_storyIds (User.favorites u) = true ->
  unique_storyIds (User.favorites (perform net (RemoveFavorite story) u)) = true.
Proof.
  intros net u story H. unfold perform. rewrite run_removeFavorite. simpl.
  rewrite unique_storyIds_spec in *. intros id.
  pose proof (count_storyId_filter id
    (fun s => negb (strict_eq (Story.storyId s) (Story.storyId story)))
    (User.favorites u)).
  specialize (H id). lia.
Qed.

(** [addFavorite] keeps it set-like when the story is not a favourite
    yet. *)
Lemma addFavorite_new_keeps_unique : forall net u story,
  unique_storyIds (User.favorites u) = true ->
  User.isFavorite u story = false ->
  unique_storyIds (User.favorites (perform net (AddFavorite story) u)) = true.
Proof.
  intros net u story H Hnew. unfold perform. rewrite run_addFavorite. simpl.
  unfold User.isFavorite in Hnew. rewrite isFavorite_loop_existsb in Hnew.
  apply count_storyId_absent in Hnew.
  rewrite unique_storyIds_spec in *. intros id.
  rewrite count_storyId_app. unfold count_storyId at 2. simpl.
  destruct (strict_eq (Story.storyId story) id) eqn:E; simpl.
  - apply strict_eq_spec in E. subst id. lia.
  - specialize (H id). lia.
Qed.

End FavoritesAsASet.

(** C2, as stated, fails, in three ways.  A user fresh from [login] with
    no favourites, on whom [addFavorite] is called twice with the same
    story, holds that story twice.  A user fresh from [login] holds a
    story twice when the profile of the response lists it twice.  And
    the click handler does not keep [addFavorite] from a story that is a
    favourite: a click on the [span] around an empty star, a second one,
    and a click on the icon leave story "3" twice among the favourites. *)
Lemma addFavorite_twice_duplicates :
  (call (Demo.answering 200 Demo.logged_in) (User.login (VStr "u") (VStr "pw"))
   = Normal Demo.current_user
   /\ User.favorites
        (perform_all (P := Demo.platform)
           [(Demo.answering 200 (VObj []), AddFavorite Demo.one);
            (Demo.answering 200 (VObj []), AddFavorite Demo.one)]
           Demo.current_user)
      = [Demo.one; Demo.one]
   /\ count_storyId (VStr "1")
        (User.favorites
           (perform_all (P := Demo.platform)
              [(Demo.answering 200 (VObj []), AddFavorite Demo.one);
               (Demo.answering 200 (VObj []), AddFavorite Demo.one)]
              Demo.current_user))
      = 2
   /\ unique_storyIds
        (User.favorites
           (perform_all (P := Demo.platform)
              [(Demo.answering 200 (VObj []), AddFavorite Demo.one);
               (Demo.answering 200 (VObj []), AddFavorite Demo.one)]
              Demo.current_user))
      = false)
  /\ (call (Demo.answering 200 Demo.logged_in_twice)
            (User.login (VStr "u") (VStr "pw"))
      = Normal (User.set_favorites Demo.current_user [Demo.one; Demo.one])
      /\ unique_storyIds
           (User.favorites
              (User.set_favorites Demo.current_user [Demo.one; Demo.one]))
         = false)
  /\ (Stories.currentUser (Stories.page Demo.three_clicks)
      = Some (User.set_favorites Demo.fan
                [Demo.one; Demo.two; Demo.three; Demo.three])
      /\ unique_storyIds [Demo.one; Demo.two; Demo.three; Demo.three] = false).
Proof. repeat split; vm_compute; reflexivity. Qed.

(** C2, amended.  Take a user whose [favorites] carry no identifier twice
    (built at signup, login or session restoration from such a list), the
    identifiers being primitive values, as the strings the service
    assigns are.  Then every sequence of [addFavorite] / [removeFavorite]
    calls, on stories with primitive identifiers, in which [addFavorite]
    is only called on a story that [isFavorite] reports as not a
    favourite at that moment, keeps at most one entry per [storyId] (and
    the identifiers primitive), whatever the network did on each call. *)
Theorem favorites_stay_unique :
  forall (P : Platform) (calls : list (network * fav_call)) (u : User.t),
    primitive_ids (User.favorites u) = true ->
    primitive_calls calls = true ->
    unique_storyIds (User.favorites u) = true ->
    adds_only_new calls u = true ->
    unique_storyIds (User.favorites (perform_all calls u)) = true
    /\ (forall id, count_storyId id (User.favorites (perform_all calls u)) <= 1)
    /\ primitive_ids (User.favorites (perform_all calls u)) = true.
Proof.
  intros P calls.
  assert (H : forall u, primitive_ids (User.favorites u) = true ->
                        primitive_calls calls = true ->
                        unique_storyIds (User.favorites u) = true ->
                        adds_only_new calls u = true ->
                        unique_storyIds (User.favorites (perform_all calls u)) = true
                        /\ primitive_ids (User.favorites (perform_all calls u)) = true).
  { induction calls as [ | [net c] calls IH ]; intros u Hprim Hpcalls Hu Hcalls.
    - split; assumption.
    - cbn [adds_only_new] in Hcalls. apply andb_true_iff in Hcalls.
      destruct Hcalls as [Hc Hrest].
      unfold primitive_calls, primitive_ids in Hpcalls. simpl in Hpcalls.
      apply andb_true_iff in Hpcalls. destruct Hpcalls as [Hpc Hpcalls].
      cbn [perform_all]. apply IH; [ | exact Hpcalls | | exact Hrest].
      + destruct c as [story | story]; unfold perform.
        * rewrite run_addFavorite. simpl. unfold primitive_ids.
          rewrite forallb_app. simpl. simpl in Hpc.
          unfold primitive_ids in Hprim. rewrite Hprim, Hpc. reflexivity.
        * rewrite run_removeFavorite. simpl. unfold primitive_ids in *.
          apply forallb_forall. intros x Hx. apply filter_In in Hx.
          destruct Hx as [Hx _].
          exact (proj1 (forallb_forall _ _) Hprim x Hx).
      + destruct c as [story | story].
        * apply addFavorite_new_keeps_unique; [exact Hu | ].
          apply negb_true_iff. exact Hc.
        * apply removeFavorite_keeps_unique. exact Hu. }
  intros u Hprim Hpcalls Hu Hcalls.
  destruct (H u Hprim Hpcalls Hu Hcalls) as [Hunique Hprimitive].
  split; [exact Hunique | ]. split; [ | exact Hprimitive].
  apply unique_storyIds_spec. exact Hunique.
Qed.

(** A session on the user of the examples: favourite "1", favourite "2",
    unfavourite "1", favourite "1" again, with the transport failing on
    the second call. *)
Lemma favorites_stay_unique_witness :
  unique_storyIds
    (User.favorites
       (perform_all (P := Demo.platform)
          [(Demo.answering 200 (VObj []), AddFavorite Demo.one);
           (Demo.offline, AddFavorite Demo.two);
           (Demo.answering 200 (VObj []), RemoveFavorite Demo.one);
           (Demo.answering 200 (VObj []), AddFavorite Demo.one)]
          Demo.current_user))
  = true
  /\ (forall id,
        count_storyId id
          (User.favorites
             (perform_all (P := Demo.platform)
                [(Demo.answering 200 (VObj []), AddFavorite Demo.one);
                 (Demo.offline, AddFavorite Demo.two);
                 (Demo.answering 200 (VObj []), RemoveFavorite Demo.one);
                 (Demo.answering 200 (VObj []), AddFavorite Demo.one)]
                Demo.current_user))
        <= 1)
  /\ primitive_ids
       (User.favorites
          (perform_all (P := Demo.platform)
             [(Demo.answering 200 (VObj []), AddFavorite Demo.one);
              (Demo.offline, AddFavorite Demo.two);
              (Demo.answering 200 (VObj []), RemoveFavorite Demo.one);
              (Demo.answering 200 (VObj []), AddFavorite Demo.one)]
             Demo.current_user))
     = true.
Proof.
  apply (@favorites_stay_unique Demo.platform
           [(Demo.answering 200 (VObj []), AddFavorite Demo.one);
            (Demo.offline, AddFavorite Demo.two);
            (Demo.answering 200 (VObj []), RemoveFavorite Demo.one);
            (Demo.answering 200 (VObj []), AddFavorite Demo.one)]
           Demo.current_user).
  - reflexivity.
  - reflexivity.
  - reflexivity.
  - vm_compute. reflexivity.
Defined.

(* ===================================================================== *)
(** ** Constructing users *)
(* ===================================================================== *)

Lemma mapM_Forall2 : forall (A B : Type) (f : A -> completion B) l l',
  mapM f l = Normal l' <-> Forall2 (fun x y => f x = Normal y) l l'.
Proof.
  intros A B f. induction l as [ | x l IH ]; intros l'; simpl.
  - split.
    + intros E. injection E as <-. constructor.
    + intros H. inversion H. reflexivity.
  - split.
    + destruct (f x) as [y | e] eqn:Ex; simpl; [ | discriminate].
      destruct (mapM f l) as [ys | e] eqn:El; simpl; [ | discriminate].
      intros E. injection E as <-. constructor; [exact Ex | ].
      apply IH. reflexivity.
    + intros H. inversion H as [ | x0 y l0 ys Hy Hys ]; subst.
      rewrite Hy. simpl. apply IH in Hys. rewrite Hys. reflexivity.
Qed.

Lemma array_map_stories_of : forall a l,
  array_map Story.new (or_default (VArr []) a) = Normal l <-> stories_of a l.
Proof.
  intros a l. unfold stories_of, array_map. split.
  - destruct (or_default (VArr []) a) as [ | | | | | items | ]; try discriminate.
    intros H. exists items. split; [reflexivity | ].
    apply mapM_Forall2. exact H.
  - intros (records & -> & H). apply mapM_Forall2. exact H.
Qed.

(** What the constructor makes of the object literal that [signup],
    [login] and [loginViaStoredCredentials] hand to it. *)
Lemma new_of_literal :
  forall username name createdAt favorites stories token u,
    User.new (VObj [("username", username); ("name", name);
                    ("createdAt", createdAt); ("favorites", favorites);
                    ("ownStories", stories)]) token = Normal u ->
    User.username u = username
    /\ User.name u = name
    /\ User.createdAt u = createdAt
    /\ stories_of favorites (User.favorites u)
    /\ stories_of stories (User.ownStories u)
    /\ User.loginToken u = token.
Proof.
  intros username name createdAt favorites stories token u.
  unfold User.new. simpl.
  destruct (array_map Story.new (or_default (VArr []) favorites))
    as [fs | e] eqn:Ef; simpl; [ | discriminate].
  destruct (array_map Story.new (or_default (VArr []) stories))
    as [os | e] eqn:Eo; simpl; [ | discriminate].
  intros E. injection E as <-. simpl.
  apply array_map_stories_of in Ef, Eo.
  repeat split; assumption.
Qed.

Lemma run_try_catch : forall (S A : Type) net (p : prog S A) h s,
  run net (try_catch p h) s
  = match run net p s with
    | (s', Normal a) => (s', Normal a)
    | (s', Abrupt e) => run net (h e) s'
    end.
Proof.
  intros S A net p h. induction p as [ a | e | k IH | s0 k IH | msg e k IH | req k IH ];
    intros s; simpl; auto.
Qed.

(** A user that [signup] returned holds the profile of a response. *)
Lemma signup_holds_profile : forall net username password name u,
  call net (User.signup username password name) = Normal u ->
  exists user, answered_with net user /\ holds_profile user u.
Proof.
  intros net username password name u. unfold call, User.signup, fetch, json.
  simpl.
  match goal with |- context [ net ?r ] => destruct (net r) as [response | e] eqn:Hnet end;
    simpl; [ | discriminate].
  destruct (resp_json response) as [userData | e] eqn:Hjson; simpl; [ | discriminate].
  destruct (get_prop "user" userData) as [user | e] eqn:Huser; simpl; [ | discriminate].
  destruct (get_prop "username" user) as [un | e] eqn:Hun; simpl; [ | discriminate].
  destruct (get_prop "name" user) as [n | e] eqn:Hn; simpl; [ | discriminate].
  destruct (get_prop "createdAt" user) as [c | e] eqn:Hc; simpl; [ | discriminate].
  destruct (get_prop "favorites" user) as [f | e] eqn:Hf; simpl; [ | discriminate].
  destruct (get_prop "stories" user) as [st | e] eqn:Hst; simpl; [ | discriminate].
  destruct (get_prop "token" userData) as [tok | e] eqn:Htok; simpl; [ | discriminate].
  match goal with |- context [ User.new ?d ?t ] => destruct (User.new d t) as [u' | e] eqn:Hnew end;
    simpl; [ | discriminate].
  intros E. injection E as <-.
  apply new_of_literal in Hnew. destruct Hnew as (_ & _ & _ & Hfs & Hos & _).
  exists user. split.
  - eexists _, response, userData. repeat split; eassumption.
  - exists f, st. repeat split; assumption.
Qed.

(** A user that [login] returned holds the profile of a response. *)
Lemma login_holds_profile : forall net username password u,
  call net (User.login username password) = Normal u ->
  exists user, answered_with net user /\ holds_profile user u.
Proof.
  intros net username password u. unfold call, User.login, fetch, json.
  simpl.
  match goal with |- context [ net ?r ] => destruct (net r) as [response | e] eqn:Hnet end;
    simpl; [ | discriminate].
  destruct (resp_json response) as [userData | e] eqn:Hjson; simpl; [ | discriminate].
  destruct (get_prop "user" userData) as [user | e] eqn:Huser; simpl; [ | discriminate].
  destruct (get_prop "username" user) as [un | e] eqn:Hun; simpl; [ | discriminate].
  destruct (get_prop "name" user) as [n | e] eqn:Hn; simpl; [ | discriminate].
  destruct (get_prop "createdAt" user) as [c | e] eqn:Hc; simpl; [ | discriminate].
  destruct (get_prop "favorites" user) as [f | e] eqn:Hf; simpl; [ | discriminate].
  destruct (get_prop "stories" user) as [st | e] eqn:Hst; simpl; [ | discriminate].
  destruct (get_prop "token" userData) as [tok | e] eqn:Htok; simpl; [ | discriminate].
  match goal with |- context [ User.new ?d ?t ] => destruct (User.new d t) as [u' | e] eqn:Hnew end;
    simpl; [ | discriminate].
  intros E. injection E as <-.
  apply new_of_literal in Hnew. destruct Hnew as (_ & _ & _ & Hfs & Hos & _).
  exists user. split.
  - eexists _, response, userData. repeat split; eassumption.
  - exists f, st. repeat split; assumption.
Qed.

Section Restoration.
Context {P : Platform}.

(** When the [try] block of [loginViaStoredCredentials] runs to its
    [return], it returns a user that carries the token passed in and
    holds the profile of a response. *)
Lemma try_block_returns : forall net token username o,
  call net (User.loginViaStoredCredentials_try token username) = Normal o ->
  exists u, o = Some u
            /\ User.loginToken u = token
            /\ exists user, answered_with net user /\ holds_profile user u.
Proof.
  intros net token username o.
  unfold call, User.loginViaStoredCredentials_try, fetch, json. simpl.
  destruct (URLSearchParams [("token", token)]) as [params | e] eqn:Hparams;
    simpl; [ | discriminate].
  destruct (ToString username) as [path | e] eqn:Hpath; simpl; [ | discriminate].
  match goal with |- context [ net ?r ] => destruct (net r) as [response | e] eqn:Hnet end;
    simpl; [ | discriminate].
  destruct (resp_json response) as [userData | e] eqn:Hjson; simpl; [ | discriminate].
  destruct (get_prop "user" userData) as [user | e] eqn:Huser; simpl; [ | discriminate].
  destruct (get_prop "username" user) as [un | e] eqn:Hun; simpl; [ | discriminate].
  destruct (get_prop "name" user) as [n | e] eqn:Hn; simpl; [ | discriminate].
  destruct (get_prop "createdAt" user) as [c | e] eqn:Hc; simpl; [ | discriminate].
  destruct (get_prop "favorites" user) as [f | e] eqn:Hf; simpl; [ | discriminate].
  destruct (get_prop "stories" user) as [st | e] eqn:Hst; simpl; [ | discriminate].
  match goal with |- context [ User.new ?d ?t ] => destruct (User.new d t) as [u' | e] eqn:Hnew end;
    simpl; [ | discriminate].
  intros E. injection E as <-.
  apply new_of_literal in Hnew. destruct Hnew as (_ & _ & _ & Hfs & Hos & Htok).
  exists u'. repeat split; [exact Htok | ].
  exists user. split.
  - eexists _, response, userData. repeat split; eassumption.
  - exists f, st. repeat split; assumption.
Qed.

(** [loginViaStoredCredentials] settles the way its [try] block does,
    except that a throw becomes the return value [null]. *)
Lemma loginViaStoredCredentials_settles : forall net token username,
  call net (User.loginViaStoredCredentials token username)
  = match call net (User.loginViaStoredCredentials_try token username) with
    | Normal o => Normal o
    | Abrupt _ => Normal None
    end.
Proof.
  intros net token username. unfold call, User.loginViaStoredCredentials.
  simpl. rewrite run_try_catch.
  destruct (run net (User.loginViaStoredCredentials_try token username) tt)
    as [s [o | e]]; reflexivity.
Qed.

End Restoration.

(* ===================================================================== *)
(** ** The three ways to obtain a user *)
(* ===================================================================== *)

(** C8.  [signup], [login] and [loginViaStoredCredentials] translate the
    profile of the response in the same way: the user they return holds,
    in [ownStories], the stories built element by element from the array
    that arrived under the key [stories], and in [favorites] those built
    from the array under [favorites]. *)
Theorem factories_translate_stories :
  forall (P : Platform) (net : network),
    (forall username password name u,
        call net (User.signup username password name) = Normal u ->
        exists user, answered_with net user /\ holds_profile user u)
    /\ (forall username password u,
          call net (User.login username password) = Normal u ->
          exists user, answered_with net user /\ holds_profile user u)
    /\ (forall token username u,
          call net (User.loginViaStoredCredentials token username)
          = Normal (Some u) ->
          exists user, answered_with net user /\ holds_profile user u).
Proof.
  intros P net. split; [ | split ].
  - intros username password name u. apply signup_holds_profile.
  - intros username password u. apply login_holds_profile.
  - intros token username u. rewrite loginViaStoredCredentials_settles.
    destruct (call net (User.loginViaStoredCredentials_try token username))
      as [o | e] eqn:Htry; [ | discriminate].
    intros E. injection E as ->.
    apply try_block_returns in Htry.
    destruct Htry as (u' & E & _ & user & Hnet & Hprofile).
    injection E as <-. exists user. split; assumption.
Qed.

(** The three operations against a service that sends one favourite,
    one story under [stories], and a stray [ownStories] key. *)
Lemma factories_translate_stories_witness :
  (call (Demo.answering 200 Demo.profile_answer)
        (User.signup (VStr "u") (VStr "pw") (VStr "U"))
   = Normal Demo.profiled_user
   /\ exists user,
        answered_with (Demo.answering 200 Demo.profile_answer) user
        /\ holds_profile user Demo.profiled_user)
  /\ (call (Demo.answering 200 Demo.profile_answer)
           (User.login (VStr "u") (VStr "pw"))
      = Normal Demo.profiled_user
      /\ exists user,
           answered_with (Demo.answering 200 Demo.profile_answer) user
           /\ holds_profile user Demo.profiled_user)
  /\ (call (Demo.answering 200 Demo.profile_answer)
           (User.loginViaStoredCredentials (P := Demo.platform)
              (VStr "tok") (VStr "u"))
      = Normal (Some Demo.profiled_user)
      /\ exists user,
           answered_with (Demo.answering 200 Demo.profile_answer) user
           /\ holds_profile user Demo.profiled_user).
Proof.
  pose proof (@factories_translate_stories Demo.platform
                (Demo.answering 200 Demo.profile_answer))
    as (Hsignup & Hlogin & Hrestore).
  split; [ | split ].
  - split; [reflexivity | ].
    apply (Hsignup (VStr "u") (VStr "pw") (VStr "U")). reflexivity.
  - split; [reflexivity | ].
    apply (Hlogin (VStr "u") (VStr "pw")). reflexivity.
  - split; [reflexivity | ].
    apply (Hrestore (VStr "tok") (VStr "u")). reflexivity.
Defined.

(* ===================================================================== *)
(** ** The User constructor *)
(* ===================================================================== *)

(** C10.  The [User] constructor accepts a profile record from which
    [favorites] or [ownStories] is missing: a missing array counts as the
    empty one.  Given a record whose arrays, where present, hold story
    records, it returns a user whose [favorites] and [ownStories] are the
    stories built from those records, in order; and every user it returns
    is of that form. *)
Theorem User_new_defaults :
  forall (data token : value),
    (forall frecs orecs fs os,
        data <> VUndefined -> data <> VNull ->
        (get_prop "favorites" data = Normal VUndefined /\ frecs = []
         \/ get_prop "favorites" data = Normal (VArr frecs)) ->
        (get_prop "ownStories" data = Normal VUndefined /\ orecs = []
         \/ get_prop "ownStories" data = Normal (VArr orecs)) ->
        Forall2 story_of frecs fs ->
        Forall2 story_of orecs os ->
        exists u,
          User.new data token = Normal u
          /\ User.favorites u = fs
          /\ User.ownStories u = os
          /\ User.loginToken u = token
          /\ get_prop "username" data = Normal (User.username u)
          /\ get_prop "name" data = Normal (User.name u)
          /\ get_prop "createdAt" data = Normal (User.createdAt u))
    /\ (forall u,
          User.new data token = Normal u ->
          exists favorites ownStories,
            get_prop "favorites" data = Normal favorites
            /\ get_prop "ownStories" data = Normal ownStories
            /\ stories_of favorites (User.favorites u)
            /\ stories_of ownStories (User.ownStories u)).
Proof.
  intros data token. split.
  - intros frecs orecs fs os Hu Hn Hf Ho Hfs Hos.
    assert (Hget : forall k, exists v, get_prop k data = Normal v).
    { intros k. destruct data as [ | | b | n | s | items | props ]; simpl;
        try contradiction; try (eexists; reflexivity).
      destruct (lookup k props); eexists; reflexivity. }
    destruct (Hget "username") as (un & Hun).
    destruct (Hget "name") as (n & Hname).
    destruct (Hget "createdAt") as (c & Hc).
    assert (Ef : exists fa, get_prop "favorites" data = Normal fa
                            /\ or_default (VArr []) fa = VArr frecs).
    { destruct Hf as [[E ->] | E]; eexists; (split; [exact E | reflexivity]). }
    assert (Eo : exists oa, get_prop "ownStories" data = Normal oa
                            /\ or_default (VArr []) oa = VArr orecs).
    { destruct Ho as [[E ->] | E]; eexists; (split; [exact E | reflexivity]). }
    destruct Ef as (fa & Hfa & Efa). destruct Eo as (oa & Hoa & Eoa).
    apply mapM_Forall2 in Hfs, Hos.
    unfold User.new. rewrite Hun, Hname, Hc, Hfa, Hoa. simpl.
    rewrite Efa, Eoa. simpl. rewrite Hfs. simpl. rewrite Hos. simpl.
    eexists. split; [reflexivity | ]. simpl. repeat split; reflexivity.
  - intros u. unfold User.new.
    destruct (get_prop "username" data) as [un | e]; simpl; [ | discriminate].
    destruct (get_prop "name" data) as [n | e]; simpl; [ | discriminate].
    destruct (get_prop "createdAt" data) as [c | e]; simpl; [ | discriminate].
    destruct (get_prop "favorites" data) as [fa | e]; simpl; [ | discriminate].
    destruct (get_prop "ownStories" data) as [oa | e]; simpl; [ | discriminate].
    destruct (array_map Story.new (or_default (VArr []) fa))
      as [fs | e] eqn:Ef; simpl; [ | discriminate].
    destruct (array_map Story.new (or_default (VArr []) oa))
      as [os | e] eqn:Eo; simpl; [ | discriminate].
    intros E. injection E as <-. simpl.
    apply array_map_stories_of in Ef, Eo.
    exists fa, oa. repeat split; assumption.
Qed.

(** A profile record with neither array gives a user with no favourites
    and no own stories. *)
Lemma User_new_defaults_witness :
  exists u,
    User.new Demo.bare_profile (VStr "tok") = Normal u
    /\ User.favorites u = []
    /\ User.ownStories u = []
    /\ User.loginToken u = VStr "tok"
    /\ get_prop "username" Demo.bare_profile = Normal (User.username u)
    /\ get_prop "name" Demo.bare_profile = Normal (User.name u)
    /\ get_prop "createdAt" Demo.bare_profile = Normal (User.createdAt u).
Proof.
  apply (proj1 (User_new_defaults Demo.bare_profile (VStr "tok")) [] [] [] []).
  - discriminate.
  - discriminate.
  - left. split; reflexivity.
  - left. split; reflexivity.
  - constructor.
  - constructor.
Defined.

(* ===================================================================== *)
(** ** Story.getHostName *)
(* ===================================================================== *)

Lemma Story_new_url : forall record s,
  Story.new record = Normal s -> get_prop "url" record = Normal (Story.url s).
Proof.
  intros record s. unfold Story.new.
  destruct (get_prop "storyId" record); simpl; [ | discriminate].
  destruct (get_prop "title" record); simpl; [ | discriminate].
  destruct (get_prop "author" record); simpl; [ | discriminate].
  destruct (get_prop "url" record); simpl; [ | discriminate].
  destruct (get_prop "username" record); simpl; [ | discriminate].
  destruct (get_prop "createdAt" record); simpl; [ | discriminate].
  intros E. injection E as <-. reflexivity.
Qed.

(** C6.  For a story constructed from a record whose [url] the platform
    parses as a URL, [getHostName()] returns the [host] of that parse:
    constructing the story does not change the host derived from the
    [url]. *)
Theorem getHostName_host_of_url :
  forall (P : Platform) (record link : value) (s : Story.t) (parsed : URL),
    Story.new record = Normal s ->
    get_prop "url" record = Normal link ->
    new_URL link = Normal parsed ->
    Story.getHostName s = Normal (host parsed).
Proof.
  intros P record link s parsed Hnew Hlink Hparsed.
  apply Story_new_url in Hnew. rewrite Hlink in Hnew. injection Hnew as ->.
  unfold Story.getHostName. rewrite Hparsed. reflexivity.
Qed.

(** The scenario of the specification: the host of
    [https://news.example.com/a/b] is [news.example.com]. *)
Lemma getHostName_host_of_url_witness :
  Story.new Demo.news_record = Normal Demo.news
  /\ Story.getHostName (P := Demo.platform) Demo.news = Normal "news.example.com".
Proof.
  split; [reflexivity | ].
  exact (@getHostName_host_of_url Demo.platform Demo.news_record
           (VStr "https://news.example.com/a/b") Demo.news
           {| protocol := "https:"; host := "news.example.com";
              hostname := "news.example.com"; port := "";
              pathname := "/a/b" |}
           eq_refl eq_refl eq_refl).
Defined.

(** C7.  For a story whose [url] the platform rejects, [getHostName()]
    ends with the very error the [URL] constructor threw: it returns no
    value, and whatever the caller would have done with the host name is
    skipped. *)
Theorem getHostName_propagates :
  forall (P : Platform) (s : Story.t) (e : error),
    new_URL (Story.url s) = Abrupt e ->
    Story.getHostName s = Abrupt e
    /\ (forall name, Story.getHostName s <> Normal name)
    /\ (forall (B : Type) (k : string -> completion B),
          (name <- Story.getHostName s ;; k name) = Abrupt e).
Proof.
  intros P s e H. unfold Story.getHostName. rewrite H. simpl.
  repeat split. discriminate.
Qed.

(** A story whose [url] is the text [not a url]. *)
Lemma getHostName_propagates_witness :
  Story.getHostName (P := Demo.platform) Demo.broken = Abrupt TypeError
  /\ (forall name, Story.getHostName (P := Demo.platform) Demo.broken <> Normal name)
  /\ (forall (B : Type) (k : string -> completion B),
        (name <- Story.getHostName (P := Demo.platform) Demo.broken ;; k name)
        = Abrupt TypeError).
Proof.
  apply (@getHostName_propagates Demo.platform Demo.broken TypeError).
  reflexivity.
Defined.

(* ===================================================================== *)
(** ** How runs compose *)
(* ===================================================================== *)

Lemma run_bind : forall (S A B : Type) net (p : prog S A) (f : A -> prog S B) s,
  run net (prog_bind p f) s
  = match run net p s with
    | (s', Normal a) => run net (f a) s'
    | (s', Abrupt e) => (s', Abrupt e)
    end.
Proof.
  intros S A B net p f.
  induction p as [ a | e | k IH | s0 k IH | msg e k IH | req k IH ];
    intros s; simpl; auto.
Qed.

(** A method call on a part of the state runs as the method does on that
    part, and writes the part back. *)
Lemma run_on_part :
  forall (S T A : Type) net (get : S -> T) (put : T -> S -> S),
    (forall t s, get (put t s) = t) ->
    (forall t t' s, put t' (put t s) = put t' s) ->
    forall (p : prog T A) s,
      put (get s) s = s ->
      run net (on_part get put p) s
      = (put (fst (run net p (get s))) s, snd (run net p (get s))).
Proof.
  intros S T A net get put Hgp Hpp.
  induction p as [ a | e | k IH | t k IH | msg e k IH | req k IH ];
    intros s Hs; simpl.
  - rewrite Hs. reflexivity.
  - rewrite Hs. reflexivity.
  - apply IH. exact Hs.
  - rewrite IH.
    + rewrite Hgp, Hpp. reflexivity.
    + rewrite Hgp, Hpp. reflexivity.
  - apply IH. exact Hs.
  - apply IH. exact Hs.
Qed.

Lemma run_static : forall (S A : Type) net (p : prog unit A) (s : S),
  run net (static p) s = (s, call net p).
Proof.
  intros S A net p s. unfold static, call.
  rewrite run_on_part; [ reflexivity | intros [] ? | | ]; reflexivity.
Qed.

(* ===================================================================== *)
(** ** What the constructors accept *)
(* ===================================================================== *)

Lemma get_prop_nullish : forall k v,
  nullish v = true -> get_prop k v = Abrupt TypeError.
Proof. intros k [ | | | | | | ]; simpl; intros H; discriminate || reflexivity. Qed.

Lemma get_prop_defined : forall k v,
  nullish v = false -> exists x, get_prop k v = Normal x.
Proof.
  intros k [ | | b | n | s | items | props ]; simpl; intros H;
    try discriminate; try (eexists; reflexivity).
  destruct (lookup k props); eexists; reflexivity.
Qed.

(** X1.  The [Story] constructor throws a [TypeError] on [undefined] and
    [null] and on nothing else: from any other value it builds a story
    whose six fields are what reading the six properties gives, so a
    property the record lacks leaves its field [undefined]. *)
Theorem Story_new_accepts :
  forall data : value,
    (nullish data = true -> Story.new data = Abrupt TypeError)
    /\ (nullish data = false ->
        exists s,
          Story.new data = Normal s
          /\ get_prop "storyId" data = Normal (Story.storyId s)
          /\ get_prop "title" data = Normal (Story.title s)
          /\ get_prop "author" data = Normal (Story.author s)
          /\ get_prop "url" data = Normal (Story.url s)
          /\ get_prop "username" data = Normal (Story.username s)
          /\ get_prop "createdAt" data = Normal (Story.createdAt s)).
Proof.
  intros data. split; intros H.
  - unfold Story.new. rewrite (get_prop_nullish "storyId" data H). reflexivity.
  - destruct (get_prop_defined "storyId" data H) as (a & Ha).
    destruct (get_prop_defined "title" data H) as (b & Hb).
    destruct (get_prop_defined "author" data H) as (c & Hc).
    destruct (get_prop_defined "url" data H) as (d & Hd).
    destruct (get_prop_defined "username" data H) as (e & He).
    destruct (get_prop_defined "createdAt" data H) as (f & Hf).
    unfold Story.new. rewrite Ha, Hb, Hc, Hd, He, Hf. simpl.
    eexists. split; [reflexivity | ]. simpl. repeat split; reflexivity.
Qed.

(** A record that has nothing but a title. *)
Lemma Story_new_accepts_witness :
  exists s,
    Story.new (VObj [("title", VStr "T")]) = Normal s
    /\ get_prop "storyId" (VObj [("title", VStr "T")]) = Normal (Story.storyId s)
    /\ get_prop "title" (VObj [("title", VStr "T")]) = Normal (Story.title s)
    /\ get_prop "author" (VObj [("title", VStr "T")]) = Normal (Story.author s)
    /\ get_prop "url" (VObj [("title", VStr "T")]) = Normal (Story.url s)
    /\ get_prop "username" (VObj [("title", VStr "T")]) = Normal (Story.username s)
    /\ get_prop "createdAt" (VObj [("title", VStr "T")]) = Normal (Story.createdAt s).
Proof.
  apply (proj2 (Story_new_accepts (VObj [("title", VStr "T")]))).
  reflexivity.
Defined.

Lemma Story_new_nullish : forall r,
  nullish r = true -> Story.new r = Abrupt TypeError.
Proof.
  intros r H. unfold Story.new. rewrite (get_prop_nullish "storyId" r H).
  reflexivity.
Qed.

Lemma Story_new_defined : forall r,
  nullish r = false -> exists s, Story.new r = Normal s.
Proof.
  intros r H.
  destruct (get_prop_defined "storyId" r H) as (a & Ha).
  destruct (get_prop_defined "title" r H) as (b & Hb).
  destruct (get_prop_defined "author" r H) as (c & Hc).
  destruct (get_prop_defined "url" r H) as (d & Hd).
  destruct (get_prop_defined "username" r H) as (e & He).
  destruct (get_prop_defined "createdAt" r H) as (f & Hf).
  unfold Story.new. rewrite Ha, Hb, Hc, Hd, He, Hf. simpl.
  eexists. reflexivity.
Qed.

(** [a.map(s => new Story(s))] goes through exactly on the arrays without
    an [undefined] or [null] element, and fails with a [TypeError]
    otherwise. *)
Lemma mapM_Story_new : forall items,
  if forallb (fun r => negb (nullish r)) items
  then exists l, mapM Story.new items = Normal l
  else mapM Story.new items = Abrupt TypeError.
Proof.
  induction items as [ | r items IH ]; simpl.
  - eexists. reflexivity.
  - destruct (nullish r) eqn:Hr; simpl.
    + rewrite (Story_new_nullish r Hr). reflexivity.
    + destruct (Story_new_defined r Hr) as (s & Hs). rewrite Hs.
      simpl. destruct (forallb _ items).
      * destruct IH as (l & ->). eexists. reflexivity.
      * rewrite IH. reflexivity.
Qed.

Lemma array_map_Story_new : forall a,
  if story_array a
  then exists l, array_map Story.new (or_default (VArr []) a) = Normal l
  else array_map Story.new (or_default (VArr []) a) = Abrupt TypeError.
Proof.
  intros a. unfold story_array, array_map.
  destruct (or_default (VArr []) a) as [ | | | | | items | ]; try reflexivity.
  apply mapM_Story_new.
Qed.

(** X2.  The [User] constructor returns a user exactly when [favorites]
    and [ownStories] of its first argument are each [undefined] or an
    array with no [undefined] or [null] element; in every other case --
    [null] in place of an array, a number, a string, an object, a [null]
    element, a first argument that is itself [undefined] or [null] -- it
    throws, and what it throws is a [TypeError]. *)
Theorem User_new_accepts :
  forall data token : value,
    ((exists u, User.new data token = Normal u) <->
     (exists favorites ownStories,
         get_prop "favorites" data = Normal favorites
         /\ get_prop "ownStories" data = Normal ownStories
         /\ story_array favorites = true
         /\ story_array ownStories = true))
    /\ (forall e, User.new data token = Abrupt e -> e = TypeError).
Proof.
  intros data token. unfold User.new.
  destruct (nullish data) eqn:Hd.
  - rewrite (get_prop_nullish "username" data Hd). simpl. split.
    + split.
      * intros (u & H). discriminate.
      * intros (f & o & Hf & _). rewrite (get_prop_nullish "favorites" data Hd) in Hf.
        discriminate.
    + intros e H. injection H as <-. reflexivity.
  - destruct (get_prop_defined "username" data Hd) as (un & ->).
    destruct (get_prop_defined "name" data Hd) as (n & ->).
    destruct (get_prop_defined "createdAt" data Hd) as (c & ->).
    destruct (get_prop_defined "favorites" data Hd) as (f & ->).
    destruct (get_prop_defined "ownStories" data Hd) as (o & ->).
    simpl.
    pose proof (array_map_Story_new f) as Hf.
    pose proof (array_map_Story_new o) as Ho.
    destruct (story_array f) eqn:Ef.
    + destruct Hf as (fs & ->). simpl.
      destruct (story_array o) eqn:Eo.
      * destruct Ho as (os & ->). simpl. split.
        -- split.
           ++ intros _. exists f, o. repeat split; assumption.
           ++ intros _. eexists. reflexivity.
        -- intros e H. discriminate.
      * rewrite Ho. simpl. split.
        -- split.
           ++ intros (u & H). discriminate.
           ++ intros (f' & o' & E1 & E2 & _ & H). injection E2 as <-.
              rewrite Eo in H. discriminate.
        -- intros e H. injection H as <-. reflexivity.
    + rewrite Hf. simpl. split.
      * split.
        -- intros (u & H). discriminate.
        -- intros (f' & o' & E1 & _ & H & _). injection E1 as <-.
           rewrite Ef in H. discriminate.
      * intros e H. injection H as <-. reflexivity.
Qed.

(** A profile whose [favorites] is [null] is rejected; one without the
    two arrays is accepted. *)
Lemma User_new_accepts_witness :
  User.new (VObj [("username", VStr "u"); ("favorites", VNull)]) (VStr "tok")
  = Abrupt TypeError
  /\ exists u, User.new Demo.bare_profile (VStr "tok") = Normal u.
Proof.
  split.
  - destruct (User.new (VObj [("username", VStr "u"); ("favorites", VNull)])
                (VStr "tok")) as [u | e] eqn:E.
    + exfalso.
      destruct (proj1 (proj1 (User_new_accepts
                                (VObj [("username", VStr "u"); ("favorites", VNull)])
                                (VStr "tok")))
                  (ex_intro _ u E))
        as (f & o & Hf & _ & Hsa & _).
      simpl in Hf. injection Hf as <-. discriminate Hsa.
    + rewrite (proj2 (User_new_accepts
                        (VObj [("username", VStr "u"); ("favorites", VNull)])
                        (VStr "tok")) e E).
      reflexivity.
  - apply (proj2 (proj1 (User_new_accepts Demo.bare_profile (VStr "tok")))).
    exists VUndefined, VUndefined. repeat split; reflexivity.
Defined.

(* ===================================================================== *)
(** ** StoryList.getStories and StoryList.addStory, further *)
(* ===================================================================== *)

(** X3.  A list that [getStories] returns was built from the array that a
    response carried under [stories]: one story per record, in the order
    of the array. *)
Theorem getStories_builds :
  forall (net : network) (list : StoryList.t),
    call net StoryList.getStories = Normal list ->
    exists response storiesData records,
      net {| req_url := BASE_URL ++ "/stories"; req_method := GET;
             req_body := None; req_headers := [] |} = Normal response
      /\ resp_json response = Normal storiesData
      /\ get_prop "stories" storiesData = Normal (VArr records)
      /\ Forall2 story_of records (StoryList.stories list)
      /\ length (StoryList.stories list) = length records.
Proof.
  intros net list. unfold call, StoryList.getStories, fetch, json. simpl.
  match goal with |- context [ net ?r ] => destruct (net r) as [response | e] eqn:Hnet end;
    simpl; [ | discriminate].
  destruct (resp_json response) as [storiesData | e] eqn:Hjson; simpl; [ | discriminate].
  destruct (get_prop "stories" storiesData) as [a | e] eqn:Ha; simpl; [ | discriminate].
  destruct a as [ | | | | | records | ]; simpl; try discriminate.
  destruct (mapM Story.new records) as [l | e] eqn:Hl; simpl; [ | discriminate].
  intros E. injection E as <-. simpl.
  apply mapM_Forall2 in Hl.
  exists response, storiesData, records. repeat split; try assumption.
  symmetry. eapply Forall2_length. exact Hl.
Qed.

Lemma getStories_builds_witness :
  call (Demo.answering 200 Demo.listed) StoryList.getStories
  = Normal {| StoryList.stories := [Demo.one; Demo.two] |}
  /\ exists response storiesData records,
       Demo.answering 200 Demo.listed
         {| req_url := BASE_URL ++ "/stories"; req_method := GET;
            req_body := None; req_headers := [] |} = Normal response
       /\ resp_json response = Normal storiesData
       /\ get_prop "stories" storiesData = Normal (VArr records)
       /\ Forall2 story_of records [Demo.one; Demo.two]
       /\ length [Demo.one; Demo.two] = length records.
Proof.
  split; [reflexivity | ].
  apply (@getStories_builds (Demo.answering 200 Demo.listed)
           {| StoryList.stories := [Demo.one; Demo.two] |}).
  reflexivity.
Defined.

(** X4.  [getStories] has no default for a missing list: when the
    document of the response carries no array under [stories] -- the key
    is absent, or holds anything that is not an array -- the call is
    rejected with a [TypeError]. *)
Theorem getStories_needs_array :
  forall (net : network) (response : Response) (storiesData found : value),
    net {| req_url := BASE_URL ++ "/stories"; req_method := GET;
           req_body := None; req_headers := [] |} = Normal response ->
    resp_json response = Normal storiesData ->
    get_prop "stories" storiesData = Normal found ->
    (forall records, found <> VArr records) ->
    call net StoryList.getStories = Abrupt TypeError.
Proof.
  intros net response storiesData found Hnet Hjson Hfound Hno.
  unfold call, StoryList.getStories, fetch, json. simpl. simpl in Hnet.
  rewrite Hnet. simpl. rewrite Hjson. simpl. rewrite Hfound. simpl.
  destruct found as [ | | | | | records | ]; try reflexivity.
  exfalso. apply (Hno records). reflexivity.
Qed.

Lemma getStories_needs_array_witness :
  call (Demo.answering 500 Demo.error_document) StoryList.getStories
  = Abrupt TypeError.
Proof.
  apply (@getStories_needs_array (Demo.answering 500 Demo.error_document)
           {| resp_status := 500; resp_json := Normal Demo.error_document |}
           Demo.error_document VUndefined eq_refl eq_refl eq_refl).
  intros records. discriminate.
Defined.

(** X5.  [addStory] changes the list in one step or not at all: when it
    returns a story, that story was put in front of the stories that
    were there; when it fails, at whatever step, the list is exactly as
    it was. *)
Theorem addStory_all_or_nothing :
  forall (net : network) (currentUser : User.t) (newStory : value)
         (self : StoryList.t),
    match run net (StoryList.addStory currentUser newStory) self with
    | (after, Normal story) =>
        StoryList.stories after = story :: StoryList.stories self
    | (after, Abrupt _) => after = self
    end.
Proof.
  intros net currentUser newStory self.
  unfold StoryList.addStory, fetch, json. simpl.
  destruct (get_prop "author" newStory); simpl; [ | reflexivity].
  destruct (get_prop "title" newStory); simpl; [ | reflexivity].
  destruct (get_prop "url" newStory); simpl; [ | reflexivity].
  match goal with |- context [ net ?r ] => destruct (net r) as [response | e] end;
    simpl; [ | reflexivity].
  destruct (resp_json response) as [data | e]; simpl; [ | reflexivity].
  destruct (get_prop "story" data) as [record | e]; simpl; [ | reflexivity].
  destruct (Story.new record) as [story | e]; simpl; reflexivity.
Qed.

(** X6.  [addStory] is not optimistic: when it hands control back at its
    [await] the list is untouched.  For a payload that is an object it
    is then waiting on a POST to [/stories] whose body is the user's
    token and the payload's [author], [title] and [url], nothing else of
    the payload; for a payload that is [undefined] or [null] it has
    thrown a [TypeError] without any request. *)
Theorem addStory_waits_for_response :
  forall (currentUser : User.t) (newStory : value) (self : StoryList.t),
    fst (start (StoryList.addStory currentUser newStory) self) = self
    /\ (nullish newStory = true ->
        snd (start (StoryList.addStory currentUser newStory) self)
        = Settled (Abrupt TypeError))
    /\ (forall author title url,
          get_prop "author" newStory = Normal author ->
          get_prop "title" newStory = Normal title ->
          get_prop "url" newStory = Normal url ->
          snd (start (StoryList.addStory currentUser newStory) self)
          = Pending
              {| req_url := BASE_URL ++ "/stories";
                 req_method := POST;
                 req_body :=
                   Some (VObj [("token", User.loginToken currentUser);
                               ("story", VObj [("author", author);
                                               ("title", title);
                                               ("url", url)])]);
                 req_headers := [("Content-Type", "application/json")] |}).
Proof.
  intros currentUser newStory self.
  unfold StoryList.addStory, fetch. split; [ | split ].
  - simpl.
    destruct (get_prop "author" newStory); simpl; [ | reflexivity].
    destruct (get_prop "title" newStory); simpl; [ | reflexivity].
    destruct (get_prop "url" newStory); simpl; reflexivity.
  - intros H. rewrite (get_prop_nullish "author" newStory H). reflexivity.
  - intros author title url -> -> ->. reflexivity.
Qed.

Lemma addStory_waits_for_response_witness :
  start (StoryList.addStory Demo.current_user VUndefined)
        {| StoryList.stories := [Demo.one; Demo.two] |}
  = ({| StoryList.stories := [Demo.one; Demo.two] |}, Settled (Abrupt TypeError))
  /\ start (StoryList.addStory Demo.current_user
              (VObj [("author", VStr "A"); ("title", VStr "T");
                     ("url", VStr "http://x.com"); ("extra", VNum 1)]))
           {| StoryList.stories := [Demo.one; Demo.two] |}
     = ({| StoryList.stories := [Demo.one; Demo.two] |},
        Pending
          {| req_url := "https://hack-or-snooze-v3.herokuapp.com/stories";
             req_method := POST;
             req_body :=
               Some (VObj [("token", VStr "tok");
                           ("story", VObj [("author", VStr "A");
                                           ("title", VStr "T");
                                           ("url", VStr "http://x.com")])]);
             req_headers := [("Content-Type", "application/json")] |}).
Proof.
  pose proof (addStory_waits_for_response Demo.current_user VUndefined
                {| StoryList.stories := [Demo.one; Demo.two] |})
    as (Hfst & Hnull & _).
  pose proof (addStory_waits_for_response Demo.current_user
                (VObj [("author", VStr "A"); ("title", VStr "T");
                       ("url", VStr "http://x.com"); ("extra", VNum 1)])
                {| StoryList.stories := [Demo.one; Demo.two] |})
    as (Hfst' & _ & Hpending).
  split.
  - apply injective_projections; [exact Hfst | ]. apply Hnull. reflexivity.
  - apply injective_projections; [exact Hfst' | ].
    apply (Hpending (VStr "A") (VStr "T") (VStr "http://x.com")); reflexivity.
Defined.

(* ===================================================================== *)
(** ** Failures of the request *)
(* ===================================================================== *)

Section Failures.
Context {P : Platform}.

(** The operations below, on a network whose every [fetch] is rejected
    with [e], or whose every body makes [response.json()] reject with
    [e]. *)
Lemma signup_fails : forall net e username password name,
  transport_down net e \/ answers_all net (Abrupt e) ->
  call net (User.signup username password name) = Abrupt e.
Proof.
  intros net e username password name H.
  unfold call, User.signup, fetch, json. simpl.
  match goal with |- context [ net ?r ] =>
    destruct H as [H | H];
      [ rewrite (H r) | destruct (H r) as (response & -> & Hjson); simpl; rewrite Hjson ]
  end; reflexivity.
Qed.

Lemma login_fails : forall net e username password,
  transport_down net e \/ answers_all net (Abrupt e) ->
  call net (User.login username password) = Abrupt e.
Proof.
  intros net e username password H.
  unfold call, User.login, fetch, json. simpl.
  match goal with |- context [ net ?r ] =>
    destruct H as [H | H];
      [ rewrite (H r) | destruct (H r) as (response & -> & Hjson); simpl; rewrite Hjson ]
  end; reflexivity.
Qed.

Lemma getStories_fails : forall net e,
  transport_down net e \/ answers_all net (Abrupt e) ->
  call net StoryList.getStories = Abrupt e.
Proof.
  intros net e H.
  unfold call, StoryList.getStories, fetch, json. simpl.
  match goal with |- context [ net ?r ] =>
    destruct H as [H | H];
      [ rewrite (H r) | destruct (H r) as (response & -> & Hjson); simpl; rewrite Hjson ]
  end; reflexivity.
Qed.

Lemma getStory_fails : forall net e storyId path,
  transport_down net e \/ answers_all net (Abrupt e) ->
  ToString storyId = Normal path ->
  call net (Story.getStory storyId) = Abrupt e.
Proof.
  intros net e storyId path H Hpath.
  unfold call, Story.getStory, fetch, json. rewrite Hpath. simpl.
  match goal with |- context [ net ?r ] =>
    destruct H as [H | H];
      [ rewrite (H r) | destruct (H r) as (response & -> & Hjson); simpl; rewrite Hjson ]
  end; reflexivity.
Qed.

Lemma addStory_fails : forall net e currentUser newStory self,
  transport_down net e \/ answers_all net (Abrupt e) ->
  nullish newStory = false ->
  run net (StoryList.addStory currentUser newStory) self = (self, Abrupt e).
Proof.
  intros net e currentUser newStory self H Hobject.
  destruct (get_prop_defined "author" newStory Hobject) as (a & Ha).
  destruct (get_prop_defined "title" newStory Hobject) as (t & Ht).
  destruct (get_prop_defined "url" newStory Hobject) as (u & Hu).
  unfold StoryList.addStory, fetch, json. rewrite Ha, Ht, Hu. simpl.
  match goal with |- context [ net ?r ] =>
    destruct H as [H | H];
      [ rewrite (H r) | destruct (H r) as (response & -> & Hjson); simpl; rewrite Hjson ]
  end; reflexivity.
Qed.

Lemma loginViaStoredCredentials_fails : forall net e token username,
  transport_down net e \/ answers_all net (Abrupt e) ->
  call net (User.loginViaStoredCredentials token username) = Normal None.
Proof.
  intros net e token username H.
  rewrite loginViaStoredCredentials_settles.
  destruct (call net (User.loginViaStoredCredentials_try token username))
    as [o | e'] eqn:Htry; [ | reflexivity].
  exfalso. revert Htry.
  unfold call, User.loginViaStoredCredentials_try, fetch, json. simpl.
  destruct (URLSearchParams [("token", token)]); simpl; [ | discriminate].
  destruct (ToString username); simpl; [ | discriminate].
  match goal with |- context [ net ?r ] =>
    destruct H as [H | H];
      [ rewrite (H r) | destruct (H r) as (response & -> & Hjson); simpl; rewrite Hjson ]
  end; discriminate.
Qed.

End Failures.

(** X7.  No operation but session restoration handles a failed request.
    When [fetch] is rejected with an error, or the body of the response
    cannot be read as JSON, [signup], [login], [getStories], [getStory]
    and [addStory] are rejected with that very error -- [addStory]
    leaving the list as it was -- while [loginViaStoredCredentials]
    returns [null]. *)
Theorem request_failure_surfaces :
  forall (P : Platform) (net : network) (e : error),
    transport_down net e \/ answers_all net (Abrupt e) ->
    (forall username password name,
        call net (User.signup username password name) = Abrupt e)
    /\ (forall username password,
          call net (User.login username password) = Abrupt e)
    /\ call net StoryList.getStories = Abrupt e
    /\ (forall storyId path,
          ToString storyId = Normal path ->
          call net (Story.getStory storyId) = Abrupt e)
    /\ (forall currentUser newStory self,
          nullish newStory = false ->
          run net (StoryList.addStory currentUser newStory) self
          = (self, Abrupt e))
    /\ (forall token username,
          call net (User.loginViaStoredCredentials token username)
          = Normal None).
Proof.
  intros P net e H. repeat split; intros.
  - apply signup_fails. exact H.
  - apply login_fails. exact H.
  - apply getStories_fails. exact H.
  - eapply getStory_fails; eassumption.
  - apply addStory_fails; assumption.
  - eapply loginViaStoredCredentials_fails. exact H.
Qed.

Lemma request_failure_surfaces_witness :
  call Demo.offline (User.login (VStr "u") (VStr "pw")) = Abrupt NetworkError
  /\ call Demo.garbled StoryList.getStories = Abrupt SyntaxError
  /\ run Demo.offline (StoryList.addStory Demo.current_user Demo.new_story)
         {| StoryList.stories := [Demo.one; Demo.two] |}
     = ({| StoryList.stories := [Demo.one; Demo.two] |}, Abrupt NetworkError)
  /\ call Demo.garbled
          (User.loginViaStoredCredentials (P := Demo.platform) (VStr "tok") (VStr "u"))
     = Normal None.
Proof.
  pose proof (@request_failure_surfaces Demo.platform Demo.offline NetworkError
                (or_introl (fun req => eq_refl)))
    as (_ & Hlogin & _ & _ & Hadd & _).
  pose proof (@request_failure_surfaces Demo.platform Demo.garbled SyntaxError
                (or_intror (fun req =>
                   ex_intro _ {| resp_status := 200; resp_json := Abrupt SyntaxError |}
                     (conj eq_refl eq_refl))))
    as (_ & _ & Hstories & _ & _ & Hrestore).
  split; [ | split; [ | split ] ].
  - apply Hlogin.
  - exact Hstories.
  - apply Hadd. reflexivity.
  - apply Hrestore.
Defined.

(** X8.  The status of a response is never looked at.  When the service
    answers with a JSON object that has no [user] and no [story] -- the
    error document it sends for bad credentials, a rejected token or an
    unknown story -- [signup], [login], [getStory] and [addStory] fail
    with a [TypeError] raised while taking the document apart
    ([addStory] leaving the list as it was), and
    [loginViaStoredCredentials] returns [null]. *)
Theorem error_document_is_a_TypeError :
  forall (P : Platform) (net : network) (props : list (string * value)),
    answers_all net (Normal (VObj props)) ->
    lookup "user" props = None ->
    lookup "story" props = None ->
    (forall username password name,
        call net (User.signup username password name) = Abrupt TypeError)
    /\ (forall username password,
          call net (User.login username password) = Abrupt TypeError)
    /\ (forall storyId path,
          ToString storyId = Normal path ->
          call net (Story.getStory storyId) = Abrupt TypeError)
    /\ (forall currentUser newStory self,
          nullish newStory = false ->
          run net (StoryList.addStory currentUser newStory) self
          = (self, Abrupt TypeError))
    /\ (forall token username,
          call net (User.loginViaStoredCredentials token username)
          = Normal None).
Proof.
  intros P net props H Huser Hstory. repeat split.
  - intros username password name.
    unfold call, User.signup, fetch, json. simpl.
    match goal with |- context [ net ?r ] =>
      destruct (H r) as (response & -> & Hjson) end.
    simpl. rewrite Hjson. simpl. rewrite Huser. reflexivity.
  - intros username password.
    unfold call, User.login, fetch, json. simpl.
    match goal with |- context [ net ?r ] =>
      destruct (H r) as (response & -> & Hjson) end.
    simpl. rewrite Hjson. simpl. rewrite Huser. reflexivity.
  - intros storyId path Hpath.
    unfold call, Story.getStory, fetch, json. rewrite Hpath. simpl.
    match goal with |- context [ net ?r ] =>
      destruct (H r) as (response & -> & Hjson) end.
    simpl. rewrite Hjson. simpl. rewrite Hstory. reflexivity.
  - intros currentUser newStory self Hobject.
    destruct (get_prop_defined "author" newStory Hobject) as (a & Ha).
    destruct (get_prop_defined "title" newStory Hobject) as (t & Ht).
    destruct (get_prop_defined "url" newStory Hobject) as (u & Hu).
    unfold StoryList.addStory, fetch, json. rewrite Ha, Ht, Hu. simpl.
    match goal with |- context [ net ?r ] =>
      destruct (H r) as (response & -> & Hjson) end.
    simpl. rewrite Hjson. simpl. rewrite Hstory. reflexivity.
  - intros token username.
    rewrite loginViaStoredCredentials_settles.
    destruct (call net (User.loginViaStoredCredentials_try token username))
      as [o | e'] eqn:Htry; [ | reflexivity].
    exfalso. revert Htry.
    unfold call, User.loginViaStoredCredentials_try, fetch, json. simpl.
    destruct (URLSearchParams [("token", token)]); simpl; [ | discriminate].
    destruct (ToString username); simpl; [ | discriminate].
    match goal with |- context [ net ?r ] =>
      destruct (H r) as (response & -> & Hjson) end.
    simpl. rewrite Hjson. simpl. rewrite Huser. simpl. discriminate.
Qed.

Lemma error_document_is_a_TypeError_witness :
  call (Demo.answering 401 Demo.error_document)
       (User.login (VStr "u") (VStr "wrong"))
  = Abrupt TypeError
  /\ call (Demo.answering 404 Demo.error_document)
          (Story.getStory (P := Demo.platform) (VStr "nope"))
     = Abrupt TypeError
  /\ run (Demo.answering 401 Demo.error_document)
         (StoryList.addStory Demo.current_user Demo.new_story)
         {| StoryList.stories := [Demo.one; Demo.two] |}
     = ({| StoryList.stories := [Demo.one; Demo.two] |}, Abrupt TypeError).
Proof.
  pose proof (fun status =>
    @error_document_is_a_TypeError Demo.platform
      (Demo.answering status Demo.error_document)
      [("error", VObj [("status", VNum 401);
                       ("title", VStr "Unauthorized");
                       ("message", VStr "Invalid token.")])]
      (fun req => ex_intro _ {| resp_status := status;
                                resp_json := Normal Demo.error_document |}
                    (conj eq_refl eq_refl))
      eq_refl eq_refl) as H.
  split; [ | split ].
  - apply (proj1 (proj2 (H 401%Z))).
  - apply (proj1 (proj2 (proj2 (H 404%Z))) (VStr "nope") "nope"). reflexivity.
  - apply (proj1 (proj2 (proj2 (proj2 (H 401%Z))))). reflexivity.
Defined.

(* ===================================================================== *)
(** ** Favourites, further *)
(* ===================================================================== *)

Lemma set_favorites_same : forall u,
  User.set_favorites u (User.favorites u) = u.
Proof. intros [ ]. reflexivity. Qed.

Lemma set_favorites_twice : forall u l l',
  User.set_favorites (User.set_favorites u l) l' = User.set_favorites u l'.
Proof. intros [ ] l l'. reflexivity. Qed.

Lemma filter_keeps_all : forall l story,
  User.isFavorite_loop l story = false ->
  filter (fun s => negb (strict_eq (Story.storyId s) (Story.storyId story))) l = l.
Proof.
  induction l as [ | s l IH ]; intros story H; simpl in *; [reflexivity | ].
  destruct (strict_eq (Story.storyId s) (Story.storyId story)); [discriminate | ].
  simpl. rewrite IH; [reflexivity | exact H].
Qed.

(** On a primitive value [===] is equality: the one case in which what
    [strict_eq] computes does not depend on how objects are told
    apart. *)
Lemma strict_eq_primitive : forall a b,
  primitive b = true -> (strict_eq a b = true <-> a = b).
Proof.
  intros a b H.
  destruct b as [ | | y | y | y | ys | qs ]; try discriminate H;
    destruct a as [ | | x | x | x | xs | ps ]; simpl;
    try (split; [discriminate | intros E; discriminate E]);
    try (split; reflexivity).
  - rewrite Bool.eqb_true_iff. split; congruence.
  - rewrite Z.eqb_eq. split; congruence.
  - rewrite String.eqb_eq. split; congruence.
Qed.

(** X9.  [isFavorite] looks at identifiers only.  For a story whose
    [storyId] is a primitive value it answers [true] exactly when some
    entry of [favorites] has that [storyId], whatever the other fields
    of either are; so two stories with that same [storyId] get the same
    answer. *)
Theorem isFavorite_by_storyId :
  forall (u : User.t) (s : Story.t),
    primitive (Story.storyId s) = true ->
    (User.isFavorite u s = true <->
     exists s', In s' (User.favorites u) /\ Story.storyId s' = Story.storyId s)
    /\ (forall s2, Story.storyId s2 = Story.storyId s ->
                   User.isFavorite u s2 = User.isFavorite u s).
Proof.
  intros u s Hprimitive. unfold User.isFavorite. split.
  - rewrite isFavorite_loop_existsb, existsb_exists. split.
    + intros (s' & Hin & H). apply (strict_eq_primitive _ _ Hprimitive) in H.
      exists s'. tauto.
    + intros (s' & Hin & H). exists s'. split; [exact Hin | ].
      apply (strict_eq_primitive _ _ Hprimitive). exact H.
  - intros s2 H. rewrite !isFavorite_loop_existsb, H. reflexivity.
Qed.

Lemma isFavorite_by_storyId_witness :
  User.isFavorite Demo.fan (Demo.story "2" "other title" "x" "y" "z") = true.
Proof.
  apply (proj1 (isFavorite_by_storyId Demo.fan
                  (Demo.story "2" "other title" "x" "y" "z") eq_refl)).
  exists Demo.two. split; [right; left; reflexivity | reflexivity].
Defined.

(** X10.  Unfavouriting undoes favouriting: for a story that is not a
    favourite, [addFavorite] followed by [removeFavorite] leaves the
    user exactly as before, whatever the network did on either call. *)
Theorem addFavorite_then_removeFavorite :
  forall (P : Platform) (net1 net2 : network) (u : User.t) (s : Story.t),
    User.isFavorite u s = false ->
    fst (run net2 (User.removeFavorite s) (fst (run net1 (User.addFavorite s) u)))
    = u.
Proof.
  intros P net1 net2 u s H. rewrite run_removeFavorite, run_addFavorite.
  rewrite set_favorites_twice. simpl.
  rewrite filter_app. simpl. rewrite strict_eq_refl. simpl.
  rewrite app_nil_r, filter_keeps_all; [ | exact H].
  apply set_favorites_same.
Qed.

(** X11.  Favouriting after unfavouriting leaves exactly one entry for
    the story, the last one, however many there were before; the entries
    of other stories keep their order.  (For a story whose [storyId] is
    a primitive value.) *)
Theorem removeFavorite_then_addFavorite :
  forall (P : Platform) (net1 net2 : network) (u : User.t) (s : Story.t),
    primitive (Story.storyId s) = true ->
    let after :=
      fst (run net2 (User.addFavorite s)
             (fst (run net1 (User.removeFavorite s) u))) in
    User.favorites after
    = filter (fun x => negb (strict_eq (Story.storyId x) (Story.storyId s)))
             (User.favorites u) ++ [s]
    /\ count_storyId (Story.storyId s) (User.favorites after) = 1
    /\ (forall x, In x (User.favorites u) ->
                  Story.storyId x <> Story.storyId s ->
                  In x (User.favorites after)).
Proof.
  intros P net1 net2 u s Hprimitive after. subst after.
  rewrite run_addFavorite, run_removeFavorite. simpl.
  split; [reflexivity | ]. split.
  - rewrite count_storyId_app.
    pose proof (isFavorite_loop_filter_out (User.favorites u) s) as H.
    rewrite isFavorite_loop_existsb in H. apply count_storyId_absent in H.
    rewrite H. unfold count_storyId. simpl. rewrite strict_eq_refl. reflexivity.
  - intros x Hin Hne. apply in_or_app. left. apply filter_In.
    split; [exact Hin | ]. apply negb_true_iff.
    destruct (strict_eq (Story.storyId x) (Story.storyId s)) eqn:E;
      [ | reflexivity].
    apply (strict_eq_primitive _ _ Hprimitive) in E. contradiction.
Qed.

(** X12.  [removeFavorite] of a story whose [storyId] is a primitive
    value removes every entry that has that [storyId], duplicates
    included, and no entry of a story with another primitive
    identifier; on a story that is not a favourite it changes nothing. *)
Theorem removeFavorite_removes_all :
  forall (P : Platform) (net : network) (u : User.t) (s : Story.t),
    primitive (Story.storyId s) = true ->
    let after := fst (run net (User.removeFavorite s) u) in
    (forall id,
        primitive id = true ->
        count_storyId id (User.favorites after)
        = if strict_eq (Story.storyId s) id then 0
          else count_storyId id (User.favorites u))
    /\ (User.isFavorite u s = false -> after = u).
Proof.
  intros P net u s Hprimitive after. subst after.
  rewrite run_removeFavorite. simpl. split.
  - intros id Hid. unfold count_storyId.
    induction (User.favorites u) as [ | x l IH ]; simpl.
    + destruct (strict_eq (Story.storyId s) id); reflexivity.
    + destruct (strict_eq (Story.storyId x) (Story.storyId s)) eqn:Exs; simpl.
      * apply (strict_eq_primitive _ _ Hprimitive) in Exs. rewrite Exs.
        destruct (strict_eq (Story.storyId s) id); simpl; [exact IH | ].
        rewrite IH. reflexivity.
      * destruct (strict_eq (Story.storyId x) id) eqn:Exi; simpl.
        -- apply (strict_eq_primitive _ _ Hid) in Exi. subst id.
           destruct (strict_eq (Story.storyId s) (Story.storyId x)) eqn:Esx.
           ++ apply (strict_eq_primitive _ _ Hid) in Esx.
              rewrite Esx, strict_eq_refl in Exs. discriminate.
           ++ rewrite IH. reflexivity.
        -- exact IH.
  - intros H. unfold User.isFavorite in H.
    rewrite filter_keeps_all; [ | exact H]. apply set_favorites_same.
Qed.

(** X13.  Calls on different stories do not interfere: for stories with
    different identifiers, favouriting one and unfavouriting the other
    give the same user in either order; two unfavouritings always do. *)
Theorem favorite_calls_commute :
  forall (P : Platform) (net1 net2 net3 net4 : network) (u : User.t) (s1 s2 : Story.t),
    (Story.storyId s1 <> Story.storyId s2 ->
     fst (run net2 (User.removeFavorite s2) (fst (run net1 (User.addFavorite s1) u)))
     = fst (run net4 (User.addFavorite s1) (fst (run net3 (User.removeFavorite s2) u))))
    /\ fst (run net2 (User.removeFavorite s2)
              (fst (run net1 (User.removeFavorite s1) u)))
       = fst (run net4 (User.removeFavorite s1)
                (fst (run net3 (User.removeFavorite s2) u))).
Proof.
  intros P net1 net2 net3 net4 u s1 s2. split.
  - intros Hne. rewrite !run_removeFavorite, !run_addFavorite.
    rewrite !set_favorites_twice. simpl. f_equal.
    rewrite filter_app. simpl.
    destruct (strict_eq (Story.storyId s1) (Story.storyId s2)) eqn:E.
    + apply strict_eq_spec in E. contradiction.
    + reflexivity.
  - rewrite !run_removeFavorite, !set_favorites_twice. simpl. f_equal.
    induction (User.favorites u) as [ | x l IH ]; simpl; [reflexivity | ].
    destruct (strict_eq (Story.storyId x) (Story.storyId s1)) eqn:E1;
      destruct (strict_eq (Story.storyId x) (Story.storyId s2)) eqn:E2;
      simpl; rewrite ?E1, ?E2; simpl; rewrite IH; reflexivity.
Qed.

(** X14.  The favourite mutators never read the response.  With a
    [username] and a [storyId] that convert to strings, [addFavorite]
    issues a POST and [removeFavorite] a DELETE to
    [/users/<username>/favorites/<storyId>] with the token as body, and
    each is fulfilled whenever [fetch] is -- whatever the status and the
    body of the response -- and rejected with the error of [fetch]
    otherwise. *)
Theorem favorite_mutators_outcome :
  forall (P : Platform) (net : network) (u : User.t) (s : Story.t) (user id : string),
    ToString (User.username u) = Normal user ->
    ToString (Story.storyId s) = Normal id ->
    let request method :=
      {| req_url := BASE_URL ++ "/users/" ++ user ++ "/favorites/" ++ id;
         req_method := method;
         req_body := Some (VObj [("token", User.loginToken u)]);
         req_headers := [("Content-Type", "application/json")] |} in
    snd (start (User.addFavorite s) u) = Pending (request POST)
    /\ snd (run net (User.addFavorite s) u)
       = match net (request POST) with
         | Normal _ => Normal tt
         | Abrupt e => Abrupt e
         end
    /\ snd (start (User.removeFavorite s) u) = Pending (request DELETE)
    /\ snd (run net (User.removeFavorite s) u)
       = match net (request DELETE) with
         | Normal _ => Normal tt
         | Abrupt e => Abrupt e
         end.
Proof.
  intros P net u s user id Huser Hid request. subst request.
  unfold User.addFavorite, User.removeFavorite, fetch. simpl.
  rewrite Huser, Hid. simpl.
  repeat split;
    match goal with |- context [ net ?r ] => destruct (net r); reflexivity end.
Qed.


(** Story "1", held twice among the favourites, unfavourited and
    favourited again. *)
Lemma removeFavorite_then_addFavorite_witness :
  User.favorites
    (fst (run Demo.offline (User.addFavorite (P := Demo.platform) Demo.one)
            (fst (run Demo.offline
                      (User.removeFavorite (P := Demo.platform) Demo.one)
                      (User.set_favorites Demo.fan
                         [Demo.one; Demo.two; Demo.one])))))
  = [Demo.two; Demo.one]
  /\ count_storyId (VStr "1")
       (User.favorites
          (fst (run Demo.offline (User.addFavorite (P := Demo.platform) Demo.one)
                  (fst (run Demo.offline
                            (User.removeFavorite (P := Demo.platform) Demo.one)
                            (User.set_favorites Demo.fan
                               [Demo.one; Demo.two; Demo.one]))))))
     = 1.
Proof.
  pose proof (@removeFavorite_then_addFavorite Demo.platform
                Demo.offline Demo.offline
                (User.set_favorites Demo.fan [Demo.one; Demo.two; Demo.one])
                Demo.one eq_refl) as (Hlist & Hcount & _).
  split; [exact Hlist | exact Hcount].
Defined.

Lemma addFavorite_then_removeFavorite_witness :
  fst (run Demo.offline (User.removeFavorite (P := Demo.platform) Demo.three)
         (fst (run (Demo.answering 200 (VObj []))
                   (User.addFavorite (P := Demo.platform) Demo.three) Demo.fan)))
  = Demo.fan.
Proof.
  apply (@addFavorite_then_removeFavorite Demo.platform
           (Demo.answering 200 (VObj [])) Demo.offline Demo.fan Demo.three).
  reflexivity.
Defined.

Lemma removeFavorite_removes_all_witness :
  fst (run Demo.offline (User.removeFavorite (P := Demo.platform) Demo.three) Demo.fan)
  = Demo.fan.
Proof.
  apply (proj2 (@removeFavorite_removes_all Demo.platform Demo.offline
                  Demo.fan Demo.three eq_refl)).
  reflexivity.
Defined.

Lemma favorite_calls_commute_witness :
  fst (run Demo.offline (User.removeFavorite (P := Demo.platform) Demo.one)
         (fst (run Demo.offline
                   (User.addFavorite (P := Demo.platform) Demo.three) Demo.fan)))
  = fst (run Demo.offline (User.addFavorite (P := Demo.platform) Demo.three)
           (fst (run Demo.offline
                     (User.removeFavorite (P := Demo.platform) Demo.one) Demo.fan))).
Proof.
  apply (proj1 (@favorite_calls_commute Demo.platform
                  Demo.offline Demo.offline Demo.offline Demo.offline
                  Demo.fan Demo.three Demo.one)).
  discriminate.
Defined.

(** A service that answers the favourite request with status 500 and a
    body that is not JSON: the call is fulfilled all the same. *)
Lemma favorite_mutators_outcome_witness :
  snd (start (User.addFavorite (P := Demo.platform) Demo.one) Demo.current_user)
  = Pending
      {| req_url := "https://hack-or-snooze-v3.herokuapp.com/users/u/favorites/1";
         req_method := POST;
         req_body := Some (VObj [("token", VStr "tok")]);
         req_headers := [("Content-Type", "application/json")] |}
  /\ snd (run (fun _ => Normal {| resp_status := 500;
                                  resp_json := Abrupt SyntaxError |})
              (User.addFavorite (P := Demo.platform) Demo.one) Demo.current_user)
     = Normal tt
  /\ snd (run Demo.offline
              (User.removeFavorite (P := Demo.platform) Demo.one) Demo.current_user)
     = Abrupt NetworkError.
Proof.
  pose proof (fun net =>
    @favorite_mutators_outcome Demo.platform net Demo.current_user Demo.one
      "u" "1" eq_refl eq_refl) as H.
  split; [ | split ].
  - exact (proj1 (H Demo.offline)).
  - exact (proj1 (proj2 (H (fun _ => Normal {| resp_status := 500;
                                               resp_json := Abrupt SyntaxError |})))).
  - exact (proj2 (proj2 (proj2 (H Demo.offline)))).
Defined.

(* ===================================================================== *)
(** ** signup and login, further *)
(* ===================================================================== *)

(** X15.  A user returned by [signup] or [login] takes its identity from
    the response, not from the arguments of the call: [username], [name]
    and [createdAt] are those of the [user] of the document, and
    [loginToken] is what the document holds under [token] --
    [undefined] when it holds nothing there. *)
Theorem signup_login_identity :
  forall (net : network),
    (forall username password name u,
        call net (User.signup username password name) = Normal u ->
        exists response userData user,
          net {| req_url := BASE_URL ++ "/signup";
                 req_method := POST;
                 req_body :=
                   Some (VObj [("user", VObj [("username", username);
                                              ("password", password);
                                              ("name", name)])]);
                 req_headers := [("content-type", "application/json")] |}
          = Normal response
          /\ resp_json response = Normal userData
          /\ get_prop "user" userData = Normal user
          /\ get_prop "username" user = Normal (User.username u)
          /\ get_prop "name" user = Normal (User.name u)
          /\ get_prop "createdAt" user = Normal (User.createdAt u)
          /\ get_prop "token" userData = Normal (User.loginToken u))
    /\ (forall username password u,
          call net (User.login username password) = Normal u ->
          exists response userData user,
            net {| req_url := BASE_URL ++ "/login";
                   req_method := POST;
                   req_body :=
                     Some (VObj [("user", VObj [("username", username);
                                                ("password", password)])]);
                   req_headers := [("content-type", "application/json")] |}
            = Normal response
            /\ resp_json response = Normal userData
            /\ get_prop "user" userData = Normal user
            /\ get_prop "username" user = Normal (User.username u)
            /\ get_prop "name" user = Normal (User.name u)
            /\ get_prop "createdAt" user = Normal (User.createdAt u)
            /\ get_prop "token" userData = Normal (User.loginToken u)).
Proof.
  intros net. split.
  - intros username password name u. unfold call, User.signup, fetch, json.
    simpl.
    match goal with |- context [ net ?r ] => destruct (net r) as [response | e] eqn:Hnet end;
      simpl; [ | discriminate].
    destruct (resp_json response) as [userData | e] eqn:Hjson; simpl; [ | discriminate].
    destruct (get_prop "user" userData) as [user | e] eqn:Huser; simpl; [ | discriminate].
    destruct (get_prop "username" user) as [un | e] eqn:Hun; simpl; [ | discriminate].
    destruct (get_prop "name" user) as [n | e] eqn:Hn; simpl; [ | discriminate].
    destruct (get_prop "createdAt" user) as [c | e] eqn:Hc; simpl; [ | discriminate].
    destruct (get_prop "favorites" user) as [f | e] eqn:Hf; simpl; [ | discriminate].
    destruct (get_prop "stories" user) as [st | e] eqn:Hst; simpl; [ | discriminate].
    destruct (get_prop "token" userData) as [tok | e] eqn:Htok; simpl; [ | discriminate].
    match goal with |- context [ User.new ?d ?t ] => destruct (User.new d t) as [u' | e] eqn:Hnew end;
      simpl; [ | discriminate].
    intros E. injection E as <-.
    apply new_of_literal in Hnew. destruct Hnew as (-> & -> & -> & _ & _ & ->).
    exists response, userData, user. repeat split; assumption.
  - intros username password u. unfold call, User.login, fetch, json.
    simpl.
    match goal with |- context [ net ?r ] => destruct (net r) as [response | e] eqn:Hnet end;
      simpl; [ | discriminate].
    destruct (resp_json response) as [userData | e] eqn:Hjson; simpl; [ | discriminate].
    destruct (get_prop "user" userData) as [user | e] eqn:Huser; simpl; [ | discriminate].
    destruct (get_prop "username" user) as [un | e] eqn:Hun; simpl; [ | discriminate].
    destruct (get_prop "name" user) as [n | e] eqn:Hn; simpl; [ | discriminate].
    destruct (get_prop "createdAt" user) as [c | e] eqn:Hc; simpl; [ | discriminate].
    destruct (get_prop "favorites" user) as [f | e] eqn:Hf; simpl; [ | discriminate].
    destruct (get_prop "stories" user) as [st | e] eqn:Hst; simpl; [ | discriminate].
    destruct (get_prop "token" userData) as [tok | e] eqn:Htok; simpl; [ | discriminate].
    match goal with |- context [ User.new ?d ?t ] => destruct (User.new d t) as [u' | e] eqn:Hnew end;
      simpl; [ | discriminate].
    intros E. injection E as <-.
    apply new_of_literal in Hnew. destruct Hnew as (-> & -> & -> & _ & _ & ->).
    exists response, userData, user. repeat split; assumption.
Qed.

(** A login as "someone" answered with the profile of "u" and no token:
    the user is "u" and has no token. *)
Lemma signup_login_identity_witness :
  call (Demo.answering 200 (VObj [("user", Demo.profile)]))
       (User.login (VStr "someone") (VStr "pw"))
  = Normal Demo.tokenless_user
  /\ exists response userData user,
       Demo.answering 200 (VObj [("user", Demo.profile)])
         {| req_url := BASE_URL ++ "/login";
            req_method := POST;
            req_body :=
              Some (VObj [("user", VObj [("username", VStr "someone");
                                         ("password", VStr "pw")])]);
            req_headers := [("content-type", "application/json")] |}
       = Normal response
       /\ resp_json response = Normal userData
       /\ get_prop "user" userData = Normal user
       /\ get_prop "username" user = Normal (VStr "u")
       /\ get_prop "name" user = Normal (VStr "U")
       /\ get_prop "createdAt" user = Normal (VStr "2023-01-01T00:00:00.000Z")
       /\ get_prop "token" userData = Normal VUndefined.
Proof.
  split; [reflexivity | ].
  apply (proj2 (signup_login_identity
                  (Demo.answering 200 (VObj [("user", Demo.profile)])))
           (VStr "someone") (VStr "pw")
           Demo.tokenless_user).
  reflexivity.
Defined.

(** X16.  A story that [getStory] returns was built from the [story] of
    a response to a GET of [/stories/<storyId>]: its fields, [storyId]
    included, are those of the response, not the argument of the call. *)
Theorem getStory_builds :
  forall (P : Platform) (net : network) (storyId : value) (s : Story.t),
    call net (Story.getStory storyId) = Normal s ->
    exists path response data record,
      ToString storyId = Normal path
      /\ net {| req_url := BASE_URL ++ "/stories/" ++ path;
                req_method := GET; req_body := None; req_headers := [] |}
         = Normal response
      /\ resp_json response = Normal data
      /\ get_prop "story" data = Normal record
      /\ story_of record s.
Proof.
  intros P net storyId s. unfold call, Story.getStory, fetch, json.
  destruct (ToString storyId) as [path | e] eqn:Hpath; simpl; [ | discriminate].
  match goal with |- context [ net ?r ] => destruct (net r) as [response | e] eqn:Hnet end;
    simpl; [ | discriminate].
  destruct (resp_json response) as [data | e] eqn:Hjson; simpl; [ | discriminate].
  destruct (get_prop "story" data) as [record | e] eqn:Hrecord; simpl; [ | discriminate].
  destruct (Story.new record) as [s' | e] eqn:Hnew; simpl; [ | discriminate].
  intros E. injection E as <-.
  exists path, response, data, record. repeat split; assumption.
Qed.

(** Asking for story "1" a service that answers with story "3". *)
Lemma getStory_builds_witness :
  call (Demo.answering 200 Demo.created)
       (Story.getStory (P := Demo.platform) (VStr "1"))
  = Normal Demo.three
  /\ exists path response data record,
       ToString (Platform := Demo.platform) (VStr "1") = Normal path
       /\ Demo.answering 200 Demo.created
            {| req_url := BASE_URL ++ "/stories/" ++ path;
               req_method := GET; req_body := None; req_headers := [] |}
          = Normal response
       /\ resp_json response = Normal data
       /\ get_prop "story" data = Normal record
       /\ story_of record Demo.three.
Proof.
  split; [reflexivity | ].
  apply (@getStory_builds Demo.platform (Demo.answering 200 Demo.created)
           (VStr "1") Demo.three).
  reflexivity.
Defined.

(* ===================================================================== *)
(** ** The story views *)
(* ===================================================================== *)

Lemma run_bind_notation :
  forall (S A B : Type) net (p : prog S A) (f : A -> prog S B) s,
    run net (bind p f) s
    = match run net p s with
      | (s', Normal a) => run net (f a) s'
      | (s', Abrupt e) => (s', Abrupt e)
      end.
Proof. intros. apply run_bind. Qed.

Lemma hasClass_addClass_same : forall c l,
  Stories.hasClass c (Stories.addClass c l) = true.
Proof.
  intros c l. unfold Stories.addClass.
  destruct (Stories.hasClass c l) eqn:E; [exact E | ].
  unfold Stories.hasClass. rewrite existsb_app. simpl.
  rewrite String.eqb_refl. apply orb_true_iff. right. reflexivity.
Qed.

Lemma hasClass_addClass_other : forall c c' l,
  c <> c' ->
  Stories.hasClass c (Stories.addClass c' l) = Stories.hasClass c l.
Proof.
  intros c c' l H. unfold Stories.addClass.
  destruct (Stories.hasClass c' l); [reflexivity | ].
  unfold Stories.hasClass. rewrite existsb_app. simpl.
  apply String.eqb_neq in H. rewrite H. simpl. apply orb_false_r.
Qed.

Lemma hasClass_removeClass_same : forall c l,
  Stories.hasClass c (Stories.removeClass c l) = false.
Proof.
  intros c l. unfold Stories.hasClass, Stories.removeClass.
  induction l as [ | x l IH ]; simpl; [reflexivity | ].
  destruct (String.eqb c x) eqn:E; simpl; [exact IH | ].
  rewrite E. exact IH.
Qed.

Section Rendering.
Context {P : Platform}.

(** The loop of [putStoriesOnPage] when every story can be rendered. *)
Lemma run_putStoriesOnPage_loop : forall net stories page rendered,
  mapM (Stories.generateStoryMarkup (Stories.currentUser page)) stories
  = Normal rendered ->
  run net (Stories.putStoriesOnPage_loop stories) page
  = (Stories.set_allStoriesList page
       {| Stories.items := Stories.items (Stories.allStoriesList page) ++ rendered;
          Stories.shown := Stories.shown (Stories.allStoriesList page) |},
     Normal tt).
Proof.
  intros net. induction stories as [ | story rest IH ]; intros page rendered H.
  - simpl in H. injection H as <-. simpl. rewrite app_nil_r.
    destruct page as [sl cu msg [its sh] fav form]. reflexivity.
  - simpl in H.
    destruct (Stories.generateStoryMarkup (Stories.currentUser page) story)
      as [item | e] eqn:Hitem; simpl in H; [ | discriminate].
    destruct (mapM (Stories.generateStoryMarkup (Stories.currentUser page)) rest)
      as [items | e] eqn:Hrest; simpl in H; [ | discriminate].
    injection H as <-.
    simpl. rewrite Hitem. simpl.
    rewrite (IH _ items); [ | exact Hrest].
    destruct page as [sl cu msg [its sh] fav form]. simpl.
    unfold Stories.set_allStoriesList. simpl.
    rewrite <- app_assoc. reflexivity.
Qed.

(** The loop of [putStoriesOnPage] when a story cannot be rendered. *)
Lemma run_putStoriesOnPage_loop_stops :
  forall net before bad rest page rendered e,
    mapM (Stories.generateStoryMarkup (Stories.currentUser page)) before
    = Normal rendered ->
    Stories.generateStoryMarkup (Stories.currentUser page) bad = Abrupt e ->
    run net (Stories.putStoriesOnPage_loop (before ++ bad :: rest)) page
    = (Stories.set_allStoriesList page
         {| Stories.items := Stories.items (Stories.allStoriesList page) ++ rendered;
            Stories.shown := Stories.shown (Stories.allStoriesList page) |},
       Abrupt e).
Proof.
  intros net. induction before as [ | story before IH ];
    intros bad rest page rendered e H Hbad.
  - simpl in H. injection H as <-. simpl. rewrite Hbad. simpl.
    rewrite app_nil_r. destruct page as [sl cu msg [its sh] fav form]. reflexivity.
  - simpl in H.
    destruct (Stories.generateStoryMarkup (Stories.currentUser page) story)
      as [item | e'] eqn:Hitem; simpl in H; [ | discriminate].
    destruct (mapM (Stories.generateStoryMarkup (Stories.currentUser page)) before)
      as [items | e'] eqn:Hrest; simpl in H; [ | discriminate].
    injection H as <-.
    simpl. rewrite Hitem. simpl.
    rewrite (IH bad rest _ items e); [ | exact Hrest | exact Hbad].
    destruct page as [sl cu msg [its sh] fav form]. simpl.
    unfold Stories.set_allStoriesList. simpl.
    rewrite <- app_assoc. reflexivity.
Qed.

(** The same two facts for the callback of [displayFavoritedStories]. *)
Lemma run_displayFavoritedStories_each : forall net favorites page rendered,
  mapM (Stories.generateStoryMarkup (Stories.currentUser page)) favorites
  = Normal rendered ->
  run net (Stories.displayFavoritedStories_each favorites) page
  = (Stories.set_favoritedStories page
       {| Stories.items := Stories.items (Stories.favoritedStories page) ++ rendered;
          Stories.shown := Stories.shown (Stories.favoritedStories page) |},
     Normal tt).
Proof.
  intros net. induction favorites as [ | story rest IH ]; intros page rendered H.
  - simpl in H. injection H as <-. simpl. rewrite app_nil_r.
    destruct page as [sl cu msg all [its sh] form]. reflexivity.
  - simpl in H.
    destruct (Stories.generateStoryMarkup (Stories.currentUser page) story)
      as [item | e] eqn:Hitem; simpl in H; [ | discriminate].
    destruct (mapM (Stories.generateStoryMarkup (Stories.currentUser page)) rest)
      as [items | e] eqn:Hrest; simpl in H; [ | discriminate].
    injection H as <-.
    simpl. rewrite Hitem. simpl.
    rewrite (IH _ items); [ | exact Hrest].
    destruct page as [sl cu msg all [its sh] form]. simpl.
    unfold Stories.set_favoritedStories. simpl.
    rewrite <- app_assoc. reflexivity.
Qed.

(** A story whose [url] the platform rejects cannot be rendered. *)
Lemma generateStoryMarkup_bad_url : forall currentUser story e,
  new_URL (Story.url story) = Abrupt e ->
  Stories.generateStoryMarkup currentUser story = Abrupt e.
Proof.
  intros currentUser story e H.
  unfold Stories.generateStoryMarkup, Story.getHostName. rewrite H. reflexivity.
Qed.

End Rendering.

(** X17.  When every story of [storyList] can be rendered,
    [putStoriesOnPage] leaves in the list of all stories exactly one
    item per story, in the order of [storyList.stories], whatever the
    list held before, and displays it; nothing else of the page changes,
    and calling it again changes nothing. *)
Theorem putStoriesOnPage_renders :
  forall (P : Platform) (net : network) (page : Stories.Page)
         (stored : StoryList.t) (rendered : list string),
    Stories.storyList page = Some stored ->
    mapM (Stories.generateStoryMarkup (Stories.currentUser page))
         (StoryList.stories stored) = Normal rendered ->
    run net Stories.putStoriesOnPage page
    = (Stories.set_allStoriesList page
         {| Stories.items := rendered; Stories.shown := true |},
       Normal tt)
    /\ run net Stories.putStoriesOnPage
           (fst (run net Stories.putStoriesOnPage page))
       = run net Stories.putStoriesOnPage page.
Proof.
  intros P net page stored rendered Hlist Hrendered.
  assert (Hrun : forall page',
             Stories.storyList page' = Some stored ->
             Stories.currentUser page' = Stories.currentUser page ->
             run net Stories.putStoriesOnPage page'
             = (Stories.set_allStoriesList page'
                  {| Stories.items := rendered; Stories.shown := true |},
                Normal tt)).
  { intros page' Hlist' Huser'. unfold Stories.putStoriesOnPage. simpl.
    rewrite Hlist'. rewrite run_bind.
    rewrite (@run_putStoriesOnPage_loop P net (StoryList.stories stored) _ rendered).
    - destruct page' as [sl cu msg [its sh] fav]. reflexivity.
    - simpl. rewrite Huser'. exact Hrendered. }
  split.
  - apply Hrun; [exact Hlist | reflexivity].
  - rewrite (Hrun page Hlist eq_refl). cbn [fst].
    rewrite Hrun.
    + destruct page as [sl cu msg [its sh] fav form]. reflexivity.
    + exact Hlist.
    + reflexivity.
Qed.

Lemma putStoriesOnPage_renders_witness :
  run Demo.offline (Stories.putStoriesOnPage (P := Demo.platform))
      (Demo.page [Demo.one; Demo.two])
  = (Stories.set_allStoriesList (Demo.page [Demo.one; Demo.two])
       {| Stories.items := [Demo.item (Some Demo.current_user) Demo.one;
                            Demo.item (Some Demo.current_user) Demo.two];
          Stories.shown := true |},
     Normal tt).
Proof.
  apply (@putStoriesOnPage_renders Demo.platform Demo.offline
           (Demo.page [Demo.one; Demo.two])
           {| StoryList.stories := [Demo.one; Demo.two] |}
           [Demo.item (Some Demo.current_user) Demo.one;
            Demo.item (Some Demo.current_user) Demo.two]).
  - reflexivity.
  - vm_compute. reflexivity.
Defined.

(** X18.  One story that cannot be rendered stops the page: when the
    [url] of a story of [storyList] is not a URL, [putStoriesOnPage]
    fails with the error of the [URL] constructor, the list of all
    stories holds the items of the stories before that one and none of
    those after it, and the list is not displayed by this call. *)
Theorem putStoriesOnPage_stops_at_bad_url :
  forall (P : Platform) (net : network) (page : Stories.Page)
         (stored : StoryList.t) (before rest : list Story.t) (bad : Story.t)
         (rendered : list string) (e : error),
    Stories.storyList page = Some stored ->
    StoryList.stories stored = before ++ bad :: rest ->
    mapM (Stories.generateStoryMarkup (Stories.currentUser page)) before
    = Normal rendered ->
    new_URL (Story.url bad) = Abrupt e ->
    run net Stories.putStoriesOnPage page
    = (Stories.set_allStoriesList page
         {| Stories.items := rendered;
            Stories.shown := Stories.shown (Stories.allStoriesList page) |},
       Abrupt e).
Proof.
  intros P net page stored before rest bad rendered e Hlist Hstories Hbefore Hbad.
  unfold Stories.putStoriesOnPage. simpl. rewrite Hlist, Hstories.
  rewrite run_bind.
  rewrite (@run_putStoriesOnPage_loop_stops P net before bad rest _ rendered e).
  - destruct page as [sl cu msg [its sh] fav form]. reflexivity.
  - exact Hbefore.
  - apply generateStoryMarkup_bad_url. exact Hbad.
Qed.

Lemma putStoriesOnPage_stops_at_bad_url_witness :
  run Demo.offline (Stories.putStoriesOnPage (P := Demo.platform))
      (Demo.page [Demo.one; Demo.broken; Demo.two])
  = (Stories.set_allStoriesList (Demo.page [Demo.one; Demo.broken; Demo.two])
       {| Stories.items := [Demo.item (Some Demo.current_user) Demo.one];
          Stories.shown := false |},
     Abrupt TypeError).
Proof.
  apply (@putStoriesOnPage_stops_at_bad_url Demo.platform Demo.offline
           (Demo.page [Demo.one; Demo.broken; Demo.two])
           {| StoryList.stories := [Demo.one; Demo.broken; Demo.two] |}
           [Demo.one] [Demo.two] Demo.broken
           [Demo.item (Some Demo.current_user) Demo.one] TypeError).
  - reflexivity.
  - reflexivity.
  - vm_compute. reflexivity.
  - reflexivity.
Defined.

(** X19.  [displayFavoritedStories] empties the list of favourites and
    then reads [currentUser.favorites]: with nobody logged in it fails
    with a [TypeError], the list emptied; with a user whose favourites
    can all be rendered it leaves one item per favourite, in the order
    of [favorites], and displays the list. *)
Theorem displayFavoritedStories_renders :
  forall (P : Platform) (net : network) (page : Stories.Page),
    (Stories.currentUser page = None ->
     run net Stories.displayFavoritedStories page
     = (Stories.set_favoritedStories page
          (Stories.empty (Stories.favoritedStories page)),
        Abrupt TypeError))
    /\ (forall user rendered,
          Stories.currentUser page = Some user ->
          mapM (Stories.generateStoryMarkup (Some user)) (User.favorites user)
          = Normal rendered ->
          run net Stories.displayFavoritedStories page
          = (Stories.set_favoritedStories page
               {| Stories.items := rendered; Stories.shown := true |},
             Normal tt)).
Proof.
  intros P net page. split.
  - intros Hnone. unfold Stories.displayFavoritedStories. simpl.
    rewrite Hnone. reflexivity.
  - intros user rendered Huser Hrendered.
    unfold Stories.displayFavoritedStories. simpl. rewrite Huser.
    rewrite run_bind.
    rewrite (@run_displayFavoritedStories_each P net (User.favorites user) _ rendered).
    + destruct page as [sl cu msg all [its sh] form]. reflexivity.
    + simpl. rewrite Huser. exact Hrendered.
Qed.

Lemma displayFavoritedStories_renders_witness :
  run Demo.offline (Stories.displayFavoritedStories (P := Demo.platform))
      Demo.anonymous_page
  = (Demo.anonymous_page, Abrupt TypeError)
  /\ run Demo.offline (Stories.displayFavoritedStories (P := Demo.platform))
         (Stories.set_currentUser (Demo.page []) (Some Demo.fan))
     = (Stories.set_favoritedStories
          (Stories.set_currentUser (Demo.page []) (Some Demo.fan))
          {| Stories.items := [Demo.item (Some Demo.fan) Demo.one;
                               Demo.item (Some Demo.fan) Demo.two];
             Stories.shown := true |},
        Normal tt).
Proof.
  split.
  - apply (proj1 (@displayFavoritedStories_renders Demo.platform Demo.offline
                    Demo.anonymous_page)).
    reflexivity.
  - apply (proj2 (@displayFavoritedStories_renders Demo.platform Demo.offline
                    (Stories.set_currentUser (Demo.page []) (Some Demo.fan)))
             Demo.fan).
    + reflexivity.
    + vm_compute. reflexivity.
Defined.

(** The list after a run of [addStory], by how the run ended. *)
Lemma addStory_list_after : forall net currentUser newStory self,
  (forall story,
      snd (run net (StoryList.addStory currentUser newStory) self) = Normal story ->
      fst (run net (StoryList.addStory currentUser newStory) self)
      = {| StoryList.stories := story :: StoryList.stories self |})
  /\ (forall e,
        snd (run net (StoryList.addStory currentUser newStory) self) = Abrupt e ->
        fst (run net (StoryList.addStory currentUser newStory) self) = self).
Proof.
  intros net currentUser newStory self.
  unfold StoryList.addStory, fetch, json. simpl.
  destruct (get_prop "author" newStory); simpl;
    [ | split; [discriminate | reflexivity]].
  destruct (get_prop "title" newStory); simpl;
    [ | split; [discriminate | reflexivity]].
  destruct (get_prop "url" newStory); simpl;
    [ | split; [discriminate | reflexivity]].
  match goal with |- context [ net ?r ] => destruct (net r) as [response | e] end;
    simpl; [ | split; [discriminate | reflexivity]].
  destruct (resp_json response) as [data | e]; simpl;
    [ | split; [discriminate | reflexivity]].
  destruct (get_prop "story" data) as [record | e]; simpl;
    [ | split; [discriminate | reflexivity]].
  destruct (Story.new record) as [story | e]; simpl;
    [ | split; [discriminate | reflexivity]].
  split; [ | discriminate].
  intros story' E. injection E as <-. reflexivity.
Qed.

Lemma set_storyList_same : forall page stored,
  Stories.storyList page = Some stored ->
  Stories.set_storyList page (Some stored) = page.
Proof. intros [ ] stored H. simpl in H. subst. reflexivity. Qed.

Section Submitting.
Context {P : Platform}.

(** How [submitAndShowNewStory] runs on a page with a list and a user, in
    terms of the run of [addStory] on that list. *)
Lemma run_submitAndShowNewStory :
  forall net page stored user author title url,
    Stories.storyList page = Some stored ->
    Stories.currentUser page = Some user ->
    run net (Stories.submitAndShowNewStory author title url) page
    = match run net (StoryList.addStory user
                       (VObj [("author", author); ("title", title); ("url", url)]))
                stored with
      | (stored', Normal story) =>
          match Stories.generateStoryMarkup (Some user) story with
          | Normal item =>
              (Stories.set_submitStoryForm
                 (Stories.set_allStoriesList
                    (Stories.set_storyList page (Some stored'))
                    (Stories.prepend item (Stories.allStoriesList page)))
                 (Stories.reset (Stories.submitStoryForm page)),
               Normal tt)
          | Abrupt e => (Stories.set_storyList page (Some stored'), Abrupt e)
          end
      | (stored', Abrupt e) => (Stories.set_storyList page (Some stored'), Abrupt e)
      end.
Proof.
  intros net page stored user author title url Hlist Huser.
  unfold Stories.submitAndShowNewStory.
  rewrite run_bind_notation. simpl run at 1. cbv iota beta.
  rewrite run_bind_notation. rewrite Hlist, Huser.
  rewrite run_on_part.
  - rewrite Hlist.
    destruct (run net (StoryList.addStory user
                         (VObj [("author", author); ("title", title); ("url", url)]))
                  stored) as [stored' [story | e]]; simpl; [ | reflexivity].
    rewrite Huser.
    destruct (Stories.generateStoryMarkup (Some user) story); reflexivity.
  - intros t s. reflexivity.
  - intros t t' s. reflexivity.
  - rewrite Hlist. apply set_storyList_same. exact Hlist.
Qed.

End Submitting.

Lemma reset_restores : forall form,
  Forall (fun c => Stories.held c = Stories.initially c) (Stories.reset form).
Proof.
  induction form as [ | c form IH ]; simpl; constructor;
    [reflexivity | exact IH].
Qed.

(** X20.  Submitting a story keeps the page in step with the list: when
    [addStory] returns a story and that story can be rendered,
    [submitAndShowNewStory] puts the story in front of
    [storyList.stories] and its item in front of the list of all
    stories, and resets the story form, every control of which goes back
    to what it held initially; nothing else of the page changes.  So a
    list that showed exactly the stories of [storyList] before the call
    shows exactly them after it. *)
Theorem submitAndShowNewStory_keeps_in_step :
  forall (P : Platform) (net : network) (page : Stories.Page)
         (stored : StoryList.t) (user : User.t) (author title url : value)
         (story : Story.t) (item : string),
    Stories.storyList page = Some stored ->
    Stories.currentUser page = Some user ->
    snd (run net (StoryList.addStory user
                    (VObj [("author", author); ("title", title); ("url", url)]))
             stored) = Normal story ->
    Stories.generateStoryMarkup (Some user) story = Normal item ->
    run net (Stories.submitAndShowNewStory author title url) page
    = ({| Stories.storyList :=
            Some {| StoryList.stories := story :: StoryList.stories stored |};
          Stories.currentUser := Stories.currentUser page;
          Stories.storiesLoadingMsg := Stories.storiesLoadingMsg page;
          Stories.allStoriesList :=
            Stories.prepend item (Stories.allStoriesList page);
          Stories.favoritedStories := Stories.favoritedStories page;
          Stories.submitStoryForm :=
            Stories.reset (Stories.submitStoryForm page) |},
       Normal tt)
    /\ Forall (fun c => Stories.held c = Stories.initially c)
         (Stories.submitStoryForm
            (fst (run net (Stories.submitAndShowNewStory author title url) page)))
    /\ (Stories.in_step page ->
        Stories.in_step
          (fst (run net (Stories.submitAndShowNewStory author title url) page))).
Proof.
  intros P net page stored user author title url story item
         Hlist Huser Hadd Hitem.
  assert (Hrun : run net (Stories.submitAndShowNewStory author title url) page
                 = ({| Stories.storyList :=
                         Some {| StoryList.stories := story :: StoryList.stories stored |};
                       Stories.currentUser := Stories.currentUser page;
                       Stories.storiesLoadingMsg := Stories.storiesLoadingMsg page;
                       Stories.allStoriesList :=
                         Stories.prepend item (Stories.allStoriesList page);
                       Stories.favoritedStories := Stories.favoritedStories page;
                       Stories.submitStoryForm :=
                         Stories.reset (Stories.submitStoryForm page) |},
                    Normal tt)).
  { rewrite (run_submitAndShowNewStory net page author title url Hlist Huser).
    pose proof (proj1 (addStory_list_after net user
                         (VObj [("author", author); ("title", title); ("url", url)])
                         stored) story Hadd) as Hafter.
    destruct (run net (StoryList.addStory user
                         (VObj [("author", author); ("title", title); ("url", url)]))
                  stored) as [stored' [story' | e]]; simpl in Hadd; [ | discriminate].
    injection Hadd as ->. rewrite Hitem.
    simpl in Hafter. subst stored'. reflexivity. }
  split; [exact Hrun | ]. split.
  - rewrite Hrun. apply reset_restores.
  - intros (stored0 & Hlist0 & Hshown). rewrite Hrun. cbn [fst].
    rewrite Hlist in Hlist0. injection Hlist0 as <-.
    exists {| StoryList.stories := story :: StoryList.stories stored |}.
    split; [reflexivity | ].
    simpl. rewrite Huser in *. rewrite Hitem. simpl. rewrite Hshown. reflexivity.
Qed.

(** X21.  When [addStory] fails, [submitAndShowNewStory] fails with the
    same error and leaves the page as it was; with no list loaded or
    nobody logged in it fails with a [TypeError] before any request.
    When the story was created but its [url] is not a URL for the
    platform, the call fails with the error of the [URL] constructor
    after [storyList] has received the story: the list of all stories
    does not show it. *)
Theorem submitAndShowNewStory_failures :
  forall (P : Platform) (net : network) (page : Stories.Page)
         (author title url : value),
    (forall stored user e,
        Stories.storyList page = Some stored ->
        Stories.currentUser page = Some user ->
        snd (run net (StoryList.addStory user
                        (VObj [("author", author); ("title", title); ("url", url)]))
                 stored) = Abrupt e ->
        run net (Stories.submitAndShowNewStory author title url) page
        = (page, Abrupt e))
    /\ (Stories.storyList page = None \/ Stories.currentUser page = None ->
        start (Stories.submitAndShowNewStory author title url) page
        = (page, Settled (Abrupt TypeError)))
    /\ (forall stored user story e,
          Stories.storyList page = Some stored ->
          Stories.currentUser page = Some user ->
          snd (run net (StoryList.addStory user
                          (VObj [("author", author); ("title", title); ("url", url)]))
                   stored) = Normal story ->
          new_URL (Story.url story) = Abrupt e ->
          run net (Stories.submitAndShowNewStory author title url) page
          = (Stories.set_storyList page
               (Some {| StoryList.stories := story :: StoryList.stories stored |}),
             Abrupt e)).
Proof.
  intros P net page author title url. split; [ | split ].
  - intros stored user e Hlist Huser Hadd.
    rewrite (run_submitAndShowNewStory net page author title url Hlist Huser).
    pose proof (proj2 (addStory_list_after net user
                         (VObj [("author", author); ("title", title); ("url", url)])
                         stored) e Hadd) as Hafter.
    destruct (run net (StoryList.addStory user
                         (VObj [("author", author); ("title", title); ("url", url)]))
                  stored) as [stored' [story' | e']]; simpl in Hadd; [discriminate | ].
    injection Hadd as ->. simpl in Hafter. subst stored'.
    rewrite set_storyList_same; [reflexivity | exact Hlist].
  - intros H. unfold Stories.submitAndShowNewStory. simpl.
    destruct (Stories.storyList page) as [stored | ];
      destruct (Stories.currentUser page) as [user | ];
      try reflexivity.
    destruct H; discriminate.
  - intros stored user story e Hlist Huser Hadd Hbad.
    rewrite (run_submitAndShowNewStory net page author title url Hlist Huser).
    pose proof (proj1 (addStory_list_after net user
                         (VObj [("author", author); ("title", title); ("url", url)])
                         stored) story Hadd) as Hafter.
    destruct (run net (StoryList.addStory user
                         (VObj [("author", author); ("title", title); ("url", url)]))
                  stored) as [stored' [story' | e']]; simpl in Hadd; [ | discriminate].
    injection Hadd as ->.
    rewrite (generateStoryMarkup_bad_url (Some user) story Hbad).
    simpl in Hafter. subst stored'. reflexivity.
Qed.

Lemma submitAndShowNewStory_keeps_in_step_witness :
  run (Demo.answering 201 Demo.created)
      (Stories.submitAndShowNewStory (P := Demo.platform)
         (VStr "A") (VStr "T") (VStr "http://x.com"))
      Demo.shown_page
  = ({| Stories.storyList :=
          Some {| StoryList.stories := [Demo.three; Demo.one; Demo.two] |};
        Stories.currentUser := Some Demo.current_user;
        Stories.storiesLoadingMsg := true;
        Stories.allStoriesList :=
          {| Stories.items := [Demo.item (Some Demo.current_user) Demo.three;
                               Demo.item (Some Demo.current_user) Demo.one;
                               Demo.item (Some Demo.current_user) Demo.two];
             Stories.shown := true |};
        Stories.favoritedStories :=
          {| Stories.items := []; Stories.shown := false |};
        Stories.submitStoryForm :=
          [{| Stories.held := VStr ""; Stories.initially := VStr "" |};
           {| Stories.held := VStr ""; Stories.initially := VStr "" |};
           {| Stories.held := VStr ""; Stories.initially := VStr "" |}] |},
     Normal tt)
  /\ Stories.in_step (P := Demo.platform)
       (fst (run (Demo.answering 201 Demo.created)
                 (Stories.submitAndShowNewStory (P := Demo.platform)
                    (VStr "A") (VStr "T") (VStr "http://x.com"))
                 Demo.shown_page)).
Proof.
  pose proof (@submitAndShowNewStory_keeps_in_step Demo.platform
                (Demo.answering 201 Demo.created) Demo.shown_page
                {| StoryList.stories := [Demo.one; Demo.two] |}
                Demo.current_user (VStr "A") (VStr "T") (VStr "http://x.com")
                Demo.three (Demo.item (Some Demo.current_user) Demo.three)
                eq_refl eq_refl eq_refl eq_refl) as (Hrun & _ & Hstep).
  split.
  - exact Hrun.
  - apply Hstep. exists {| StoryList.stories := [Demo.one; Demo.two] |}.
    split; reflexivity.
Defined.

Lemma submitAndShowNewStory_failures_witness :
  run Demo.offline
      (Stories.submitAndShowNewStory (P := Demo.platform)
         (VStr "A") (VStr "T") (VStr "http://x.com"))
      Demo.shown_page
  = (Demo.shown_page, Abrupt NetworkError)
  /\ start (Stories.submitAndShowNewStory (P := Demo.platform)
              (VStr "A") (VStr "T") (VStr "http://x.com"))
           Demo.anonymous_page
     = (Demo.anonymous_page, Settled (Abrupt TypeError))
  /\ run (Demo.answering 201 Demo.created_broken)
         (Stories.submitAndShowNewStory (P := Demo.platform)
            (VStr "B") (VStr "Broken") (VStr "not a url"))
         Demo.shown_page
     = (Stories.set_storyList Demo.shown_page
          (Some {| StoryList.stories := [Demo.broken; Demo.one; Demo.two] |}),
        Abrupt TypeError).
Proof.
  split; [ | split ].
  - apply (proj1 (@submitAndShowNewStory_failures Demo.platform Demo.offline
                    Demo.shown_page (VStr "A") (VStr "T") (VStr "http://x.com"))
             {| StoryList.stories := [Demo.one; Demo.two] |} Demo.current_user);
      reflexivity.
  - apply (proj1 (proj2 (@submitAndShowNewStory_failures Demo.platform Demo.offline
                           Demo.anonymous_page
                           (VStr "A") (VStr "T") (VStr "http://x.com")))).
    right. reflexivity.
  - apply (proj2 (proj2 (@submitAndShowNewStory_failures Demo.platform
                           (Demo.answering 201 Demo.created_broken)
                           Demo.shown_page
                           (VStr "B") (VStr "Broken") (VStr "not a url")))
             {| StoryList.stories := [Demo.one; Demo.two] |} Demo.current_user
             Demo.broken TypeError);
      reflexivity.
Defined.

Section Clicking.
Context {P : Platform}.

Lemma set_currentUser_same : forall click user,
  Stories.currentUser (Stories.page click) = Some user ->
  Stories.set_page click
    (Stories.set_currentUser (Stories.page click) (Some user))
  = click.
Proof.
  intros [icon [sl cu msg all fav form]] user H. simpl in H. subst. reflexivity.
Qed.

(** A mutator called on [currentUser] from the click handler runs as it
    does on that user, and the page holds the user it leaves. *)
Lemma run_on_currentUser :
  forall (A : Type) net (p : prog User.t A) click user,
    Stories.currentUser (Stories.page click) = Some user ->
    run net
      (on_part
         (fun c => match Stories.currentUser (Stories.page c) with
                   | Some u => u
                   | None => user
                   end)
         (fun u c => Stories.set_page c
                       (Stories.set_currentUser (Stories.page c) (Some u)))
         p)
      click
    = (Stories.set_page click
         (Stories.set_currentUser (Stories.page click)
            (Some (fst (run net p user)))),
       snd (run net p user)).
Proof.
  intros A net p click user H.
  rewrite run_on_part.
  - rewrite H. reflexivity.
  - intros t s. reflexivity.
  - intros t t' s. reflexivity.
  - rewrite H. apply set_currentUser_same. exact H.
Qed.

(** How the click handler runs once [getStory] has returned [story]. *)
Lemma run_selectAndUnselectFavoriteStory :
  forall net starStoryId click story,
    call net (Story.getStory starStoryId) = Normal story ->
    run net (Stories.selectAndUnselectFavoriteStory starStoryId) click
    = if Stories.hasClass "bi-star" (Stories.starIcon click) then
        let toggled :=
          Stories.set_starIcon click
            (Stories.addClass "bi-star-fill"
               (Stories.removeClass "bi-star" (Stories.starIcon click))) in
        match Stories.currentUser (Stories.page click) with
        | None => (toggled, Abrupt TypeError)
        | Some user =>
            (Stories.set_page toggled
               (Stories.set_currentUser (Stories.page click)
                  (Some (fst (run net (User.addFavorite story) user)))),
             snd (run net (User.addFavorite story) user))
        end
      else
        let toggled :=
          Stories.set_starIcon click
            (Stories.addClass "bi-star"
               (Stories.removeClass "bi-star-fill" (Stories.starIcon click))) in
        match Stories.currentUser (Stories.page click) with
        | None => (toggled, Abrupt TypeError)
        | Some user =>
            (Stories.set_page toggled
               (Stories.set_currentUser (Stories.page click)
                  (Some (fst (run net (User.removeFavorite story) user)))),
             snd (run net (User.removeFavorite story) user))
        end.
Proof.
  intros net starStoryId click story Hstory.
  unfold Stories.selectAndUnselectFavoriteStory.
  rewrite run_bind_notation, run_static, Hstory.
  rewrite run_bind_notation. simpl run at 1. cbv iota beta.
  destruct (Stories.hasClass "bi-star" (Stories.starIcon click)).
  - rewrite run_bind_notation. simpl run at 1. cbv iota beta.
    rewrite run_bind_notation. simpl run at 1. cbv iota beta.
    simpl Stories.page.
    destruct (Stories.currentUser (Stories.page click)) as [user | ] eqn:Huser;
      [ | reflexivity].
    rewrite run_on_currentUser; [reflexivity | exact Huser].
  - rewrite run_bind_notation. simpl run at 1. cbv iota beta.
    rewrite run_bind_notation. simpl run at 1. cbv iota beta.
    simpl Stories.page.
    destruct (Stories.currentUser (Stories.page click)) as [user | ] eqn:Huser;
      [ | reflexivity].
    rewrite run_on_currentUser; [reflexivity | exact Huser].
Qed.

End Clicking.

Lemma isFavorite_once_added : forall (P : Platform) net u s,
  User.isFavorite (fst (run net (User.addFavorite s) u)) s = true.
Proof.
  intros P net u s. rewrite run_addFavorite. unfold User.isFavorite. simpl.
  rewrite isFavorite_loop_app. simpl. rewrite strict_eq_refl.
  apply orb_true_r.
Qed.

Lemma isFavorite_once_removed : forall (P : Platform) net u s,
  User.isFavorite (fst (run net (User.removeFavorite s) u)) s = false.
Proof.
  intros P net u s. rewrite run_removeFavorite. unfold User.isFavorite. simpl.
  apply isFavorite_loop_filter_out.
Qed.

(** X22.  After a click on a star, icon and favourites agree.  Once
    [getStory] has returned the story, and with a user logged in, the
    handler calls [addFavorite] when the element clicked has the class
    [bi-star] and [removeFavorite] otherwise, and whatever the network
    does on that call the element ends with the class [bi-star-fill]
    exactly when [isFavorite] holds of the story, and with [bi-star]
    exactly when it does not. *)
Theorem click_leaves_icon_in_step :
  forall (P : Platform) (net : network) (starStoryId : value)
         (click : Stories.Click) (story : Story.t) (user : User.t),
    call net (Story.getStory starStoryId) = Normal story ->
    Stories.currentUser (Stories.page click) = Some user ->
    let after :=
      fst (run net (Stories.selectAndUnselectFavoriteStory starStoryId) click) in
    let user' :=
      if Stories.hasClass "bi-star" (Stories.starIcon click)
      then fst (run net (User.addFavorite story) user)
      else fst (run net (User.removeFavorite story) user) in
    Stories.currentUser (Stories.page after) = Some user'
    /\ Stories.hasClass "bi-star-fill" (Stories.starIcon after)
       = User.isFavorite user' story
    /\ Stories.hasClass "bi-star" (Stories.starIcon after)
       = negb (User.isFavorite user' story).
Proof.
  intros P net starStoryId click story user Hstory Huser after user'.
  subst after user'.
  rewrite (run_selectAndUnselectFavoriteStory net starStoryId click Hstory).
  rewrite Huser.
  destruct (Stories.hasClass "bi-star" (Stories.starIcon click));
    cbn [fst Stories.page Stories.starIcon Stories.set_page Stories.set_starIcon
         Stories.currentUser Stories.set_currentUser].
  - rewrite isFavorite_once_added. repeat split.
    + apply hasClass_addClass_same.
    + rewrite hasClass_addClass_other; [ | discriminate].
      apply hasClass_removeClass_same.
  - rewrite isFavorite_once_removed. repeat split.
    + rewrite hasClass_addClass_other; [ | discriminate].
      apply hasClass_removeClass_same.
    + apply hasClass_addClass_same.
Qed.

(** Two clicks on a page whose user has stories "1" and "2" as
    favourites: on the empty star of story "3", with the transport down
    for the favourite request, and on the filled star of story "1". *)
Lemma click_leaves_icon_in_step_witness :
  (Stories.starIcon
     (fst (run (Demo.answering 200 Demo.created)
               (Stories.selectAndUnselectFavoriteStory (P := Demo.platform) (VStr "3"))
               Demo.empty_star))
   = ["bi"; "bi-star-fill"]
   /\ Stories.currentUser
        (Stories.page
           (fst (run (Demo.answering 200 Demo.created)
                     (Stories.selectAndUnselectFavoriteStory (P := Demo.platform)
                        (VStr "3"))
                     Demo.empty_star)))
      = Some (User.set_favorites Demo.fan [Demo.one; Demo.two; Demo.three]))
  /\ Stories.hasClass "bi-star"
       (Stories.starIcon
          (fst (run (Demo.answering 200
                       (VObj [("story", Demo.record "1" "t1" "a1" "http://one.com" "u")]))
                    (Stories.selectAndUnselectFavoriteStory (P := Demo.platform)
                       (VStr "1"))
                    Demo.filled_star)))
     = negb (User.isFavorite
               (fst (run (Demo.answering 200
                            (VObj [("story", Demo.record "1" "t1" "a1" "http://one.com" "u")]))
                         (User.removeFavorite (P := Demo.platform) Demo.one)
                         Demo.fan))
               Demo.one).
Proof.
  split.
  - split; reflexivity.
  - exact (proj2 (proj2
      (@click_leaves_icon_in_step Demo.platform
         (Demo.answering 200
            (VObj [("story", Demo.record "1" "t1" "a1" "http://one.com" "u")]))
         (VStr "1") Demo.filled_star Demo.one Demo.fan eq_refl eq_refl))).
Defined.

(** X23.  When [getStory] fails, a click changes nothing: the handler
    fails with the error of [getStory], the class of the element clicked
    and the favourites are as before.  With nobody logged in the class is
    toggled all the same before the handler fails with a [TypeError]. *)
Theorem click_failures :
  forall (P : Platform) (net : network) (starStoryId : value)
         (click : Stories.Click),
    (forall e,
        call net (Story.getStory starStoryId) = Abrupt e ->
        run net (Stories.selectAndUnselectFavoriteStory starStoryId) click
        = (click, Abrupt e))
    /\ (forall story,
          call net (Story.getStory starStoryId) = Normal story ->
          Stories.currentUser (Stories.page click) = None ->
          run net (Stories.selectAndUnselectFavoriteStory starStoryId) click
          = (Stories.set_starIcon click
               (if Stories.hasClass "bi-star" (Stories.starIcon click)
                then Stories.addClass "bi-star-fill"
                       (Stories.removeClass "bi-star" (Stories.starIcon click))
                else Stories.addClass "bi-star"
                       (Stories.removeClass "bi-star-fill" (Stories.starIcon click))),
             Abrupt TypeError)).
Proof.
  intros P net starStoryId click. split.
  - intros e H. unfold Stories.selectAndUnselectFavoriteStory.
    rewrite run_bind_notation, run_static, H. reflexivity.
  - intros story Hstory Hnone.
    rewrite (run_selectAndUnselectFavoriteStory net starStoryId click Hstory).
    rewrite Hnone.
    destruct (Stories.hasClass "bi-star" (Stories.starIcon click)); reflexivity.
Qed.

Lemma click_failures_witness :
  run Demo.offline
      (Stories.selectAndUnselectFavoriteStory (P := Demo.platform) (VStr "3"))
      Demo.empty_star
  = (Demo.empty_star, Abrupt NetworkError).
Proof.
  apply (proj1 (@click_failures Demo.platform Demo.offline (VStr "3")
                  Demo.empty_star)).
  reflexivity.
Defined.

(** X24.  [getAndShowStoriesOnStart] removes the loading message only
    after the list has arrived: when [getStories] fails, the call fails
    with the same error and the page is as it was, loading message
    included; when [getStories] returns a list whose stories can all be
    rendered, the page holds that list, has no loading message, and
    shows one item per story in a list that is displayed. *)
Theorem getAndShowStoriesOnStart_settles :
  forall (P : Platform) (net : network) (page : Stories.Page),
    (forall e,
        call net StoryList.getStories = Abrupt e ->
        run net Stories.getAndShowStoriesOnStart page = (page, Abrupt e))
    /\ (forall stored rendered,
          call net StoryList.getStories = Normal stored ->
          mapM (Stories.generateStoryMarkup (Stories.currentUser page))
               (StoryList.stories stored) = Normal rendered ->
          run net Stories.getAndShowStoriesOnStart page
          = (Stories.set_allStoriesList
               (Stories.set_storiesLoadingMsg
                  (Stories.set_storyList page (Some stored)) false)
               {| Stories.items := rendered; Stories.shown := true |},
             Normal tt)).
Proof.
  intros P net page. split.
  - intros e H. unfold Stories.getAndShowStoriesOnStart.
    rewrite run_bind_notation, run_static, H. reflexivity.
  - intros stored rendered H Hrendered.
    unfold Stories.getAndShowStoriesOnStart.
    rewrite run_bind_notation, run_static, H.
    rewrite run_bind_notation. simpl run at 1. cbv iota beta.
    rewrite run_bind_notation. simpl run at 1. cbv iota beta.
    rewrite run_bind_notation. simpl run at 1. cbv iota beta.
    rewrite run_bind_notation. simpl run at 1. cbv iota beta.
    unfold Stories.putStoriesOnPage. simpl. rewrite run_bind.
    rewrite (@run_putStoriesOnPage_loop P net (StoryList.stories stored) _ rendered).
    + destruct page as [sl cu msg [its sh] fav form]. reflexivity.
    + exact Hrendered.
Qed.

Lemma getAndShowStoriesOnStart_settles_witness :
  run Demo.offline (Stories.getAndShowStoriesOnStart (P := Demo.platform))
      (Demo.page [])
  = (Demo.page [], Abrupt NetworkError)
  /\ run (Demo.answering 200 Demo.listed)
         (Stories.getAndShowStoriesOnStart (P := Demo.platform))
         (Demo.page [])
     = (Stories.set_storiesLoadingMsg Demo.shown_page false, Normal tt).
Proof.
  split.
  - apply (proj1 (@getAndShowStoriesOnStart_settles Demo.platform Demo.offline
                    (Demo.page []))).
    reflexivity.
  - apply (proj2 (@getAndShowStoriesOnStart_settles Demo.platform
                    (Demo.answering 200 Demo.listed) (Demo.page []))
             {| StoryList.stories := [Demo.one; Demo.two] |}
             [Demo.item (Some Demo.current_user) Demo.one;
              Demo.item (Some Demo.current_user) Demo.two]).
    + reflexivity.
    + vm_compute. reflexivity.
Defined.

(* ===================================================================== *)
(** ** Session restoration *)
(* ===================================================================== *)

(** C5.  [loginViaStoredCredentials] never throws: for every platform,
    network, token and username the promise it returns is fulfilled,
    with [null] or with a [User] that carries the token passed in.
    Whenever a step of its [try] block throws (transport failure, a body
    that is not JSON, a document without the expected profile, ...) the
    value is [null]; whenever the [try] block runs to its [return], the
    value is the [User] it built, with the token passed in.  And it does
    succeed: when the two strings of the address can be formed and the
    service answers the GET of [/users/<username>?<token parameters>]
    with a document whose [user] has, under [favorites] and [stories],
    nothing or arrays of story records, the value is a [User] with that
    token and the [username] of the document. *)
Theorem loginViaStoredCredentials_total :
  forall (P : Platform) (net : network) (token username : value),
    (call net (User.loginViaStoredCredentials token username) = Normal None
     \/ exists u,
          call net (User.loginViaStoredCredentials token username) = Normal (Some u)
          /\ User.loginToken u = token)
    /\ (forall e,
          call net (User.loginViaStoredCredentials_try token username) = Abrupt e ->
          call net (User.loginViaStoredCredentials token username) = Normal None)
    /\ (forall e,
          call net (User.loginViaStoredCredentials token username) <> Abrupt e)
    /\ (forall o,
          call net (User.loginViaStoredCredentials_try token username) = Normal o ->
          exists u,
            o = Some u
            /\ call net (User.loginViaStoredCredentials token username)
               = Normal (Some u)
            /\ User.loginToken u = token)
    /\ (forall params path response userData user favorites stories,
          URLSearchParams [("token", token)] = Normal params ->
          ToString username = Normal path ->
          net {| req_url := BASE_URL ++ "/users/" ++ path ++ "?" ++ params;
                 req_method := GET; req_body := None; req_headers := [] |}
          = Normal response ->
          resp_json response = Normal userData ->
          get_prop "user" userData = Normal user ->
          get_prop "favorites" user = Normal favorites ->
          get_prop "stories" user = Normal stories ->
          story_array favorites = true ->
          story_array stories = true ->
          exists u,
            call net (User.loginViaStoredCredentials token username)
            = Normal (Some u)
            /\ User.loginToken u = token
            /\ get_prop "username" user = Normal (User.username u)
            /\ stories_of favorites (User.favorites u)
            /\ stories_of stories (User.ownStories u)).
Proof.
  intros P net token username.
  rewrite loginViaStoredCredentials_settles.
  split; [ | split; [ | split; [ | split ] ] ].
  - destruct (call net (User.loginViaStoredCredentials_try token username))
      as [o | e0] eqn:Htry.
    + apply try_block_returns in Htry. destruct Htry as (u & -> & Htok & _).
      right. exists u. split; [reflexivity | exact Htok].
    + left. reflexivity.
  - intros e ->. reflexivity.
  - intros e.
    destruct (call net (User.loginViaStoredCredentials_try token username));
      discriminate.
  - intros o Htry. rewrite Htry.
    apply try_block_returns in Htry. destruct Htry as (u & -> & Htok & _).
    exists u. repeat split. exact Htok.
  - intros params path response userData user favorites stories
           Hparams Hpath Hnet Hjson Huser Hfavorites Hstories Hfa Hsa.
    assert (Hobject : nullish user = false).
    { destruct user; try reflexivity; discriminate Hfavorites. }
    destruct (get_prop_defined "username" user Hobject) as (un & Hun).
    destruct (get_prop_defined "name" user Hobject) as (n & Hn).
    destruct (get_prop_defined "createdAt" user Hobject) as (c & Hc).
    pose proof (array_map_Story_new favorites) as Hf. rewrite Hfa in Hf.
    pose proof (array_map_Story_new stories) as Hs. rewrite Hsa in Hs.
    destruct Hf as (fs & Hfs). destruct Hs as (os & Hos).
    assert (Htry : call net (User.loginViaStoredCredentials_try token username)
                   = Normal (Some {| User.username := un; User.name := n;
                                     User.createdAt := c; User.favorites := fs;
                                     User.ownStories := os;
                                     User.loginToken := token |})).
    { unfold call, User.loginViaStoredCredentials_try, fetch, json.
      rewrite Hparams, Hpath. simpl. simpl in Hnet. rewrite Hnet. simpl.
      rewrite Hjson. simpl. rewrite Huser. simpl.
      rewrite Hun, Hn, Hc, Hfavorites, Hstories. simpl.
      unfold User.new. simpl. rewrite Hfs. simpl. rewrite Hos. reflexivity. }
    rewrite Htry. eexists. split; [reflexivity | ]. simpl.
    apply array_map_stories_of in Hfs, Hos.
    repeat split; assumption.
Qed.

(** Restoration against a transport that is down, a body that is not
    JSON, a service that rejects the token with an error document, and a
    service that knows the user. *)
Lemma loginViaStoredCredentials_total_witness :
  call Demo.offline
       (User.loginViaStoredCredentials (P := Demo.platform) (VStr "tok") (VStr "u"))
  = Normal None
  /\ call Demo.garbled
          (User.loginViaStoredCredentials (P := Demo.platform) (VStr "tok") (VStr "u"))
     = Normal None
  /\ call (Demo.answering 401 Demo.error_document)
          (User.loginViaStoredCredentials (P := Demo.platform) (VStr "bad") (VStr "u"))
     = Normal None
  /\ exists u,
       call (Demo.answering 200 Demo.profile_answer)
            (User.loginViaStoredCredentials (P := Demo.platform)
               (VStr "tok") (VStr "u"))
       = Normal (Some u)
       /\ User.loginToken u = VStr "tok"
       /\ get_prop "username" Demo.profile = Normal (User.username u)
       /\ stories_of (VArr [Demo.record "1" "t1" "a1" "http://one.com" "u"])
            (User.favorites u)
       /\ stories_of (VArr [Demo.record "2" "t2" "a2" "http://two.com" "u"])
            (User.ownStories u).
Proof.
  split; [ | split; [ | split ] ].
  - apply (proj1 (proj2 (@loginViaStoredCredentials_total
                           Demo.platform Demo.offline (VStr "tok") (VStr "u")))
             NetworkError).
    vm_compute. reflexivity.
  - apply (proj1 (proj2 (@loginViaStoredCredentials_total
                           Demo.platform Demo.garbled (VStr "tok") (VStr "u")))
             SyntaxError).
    vm_compute. reflexivity.
  - apply (proj1 (proj2 (@loginViaStoredCredentials_total
                           Demo.platform
                           (Demo.answering 401 Demo.error_document)
                           (VStr "bad") (VStr "u")))
             TypeError).
    vm_compute. reflexivity.
  - apply (proj2 (proj2 (proj2 (proj2 (@loginViaStoredCredentials_total
                           Demo.platform
                           (Demo.answering 200 Demo.profile_answer)
                           (VStr "tok") (VStr "u")))))
             "token=tok" "u"
             {| resp_status := 200; resp_json := Normal Demo.profile_answer |}
             Demo.profile_answer Demo.profile
             (VArr [Demo.record "1" "t1" "a1" "http://one.com" "u"])
             (VArr [Demo.record "2" "t2" "a2" "http://two.com" "u"]));
      reflexivity.
Defined.
